(** * l2app_backend: the off-chain provider agent

    A shallow embedding of [src/lib/server.ts] (the [SDK] operations),
    [src/lib/common.ts] (the transaction helpers), [src/listener/cita_events.ts]
    (the application-chain event handlers) and [src/listener/listener.ts]
    (the [HttpWatcher] poller).

    Asynchronous functions are programs of a small free monad [Prog]: every
    request to a chain client is a node of the program, answered by the
    environment.  A program is run against an environment either alone
    ([run]) or interleaved with other programs at its request points
    ([interleave]). *)

From Stdlib Require Import ZArith List String Ascii Bool Lia DecimalString.
Import ListNotations.
Open Scope string_scope.
Open Scope list_scope.
Open Scope Z_scope.

(* ================================================================== *)
(** * JavaScript values used by the sources *)
(* ================================================================== *)

Module Js.

(** [s.substr(0, 2) == '0x' ? s.substr(2) : s] *)
Definition strip0x (s : string) : string :=
  if String.eqb (substring 0 2 s) "0x" then substring 2 (String.length s - 2) s else s.

Definition lowerAscii (c : ascii) : ascii :=
  let n := nat_of_ascii c in
  if (Nat.leb 65 n && Nat.leb n 90)%bool then ascii_of_nat (n + 32) else c.

(** [s.toLowerCase()] on ASCII strings (addresses and hashes). *)
Fixpoint toLowerCase (s : string) : string :=
  match s with
  | EmptyString => EmptyString
  | String c r => String (lowerAscii c) (toLowerCase r)
  end.

(** Truthiness of an optional string property ([rs.hash],
    [receipt.errorMessage], [returnValues[k]]): [undefined] and the empty
    string are falsy. *)
Definition truthy (v : option string) : bool :=
  match v with
  | Some s => negb (String.eqb s "")
  | None => false
  end.

(** Value of one digit in the given base. *)
Definition digitValue (base : Z) (c : ascii) : option Z :=
  let n := Z.of_nat (nat_of_ascii c) in
  let d := if (48 <=? n) && (n <=? 57) then n - 48
           else if (97 <=? n) && (n <=? 102) then n - 87
           else if (65 <=? n) && (n <=? 70) then n - 55
           else base in
  if d <? base then Some d else None.

Fixpoint parseDigits (base : Z) (s : string) (acc : Z) : option Z :=
  match s with
  | EmptyString => Some acc
  | String c r =>
      match digitValue base c with
      | Some d => parseDigits base r (base * acc + d)
      | None => None
      end
  end.

(** The integer denoted by a string of decimal digits, the form in which the
    chain clients return [uint256] values.  [None] stands for the exception
    that [toBN] / [new BN] raise on anything else. *)
Definition parseDecimal (s : string) : option Z :=
  match s with
  | EmptyString => None
  | _ => parseDigits 10 s 0
  end.

(** The integer denoted by a [0x]-prefixed string of hex digits. *)
Definition hexToZ (s : string) : option Z :=
  if String.eqb (substring 0 2 s) "0x"
  then parseDigits 16 (substring 2 (String.length s - 2) s) 0
  else None.

(** [Number(v)] for an integer [v]: the nearest IEEE-754 double, ties to
    even.  Integers below 2^53 in magnitude are represented exactly; above,
    only 53 significant bits are kept.  (No overflow to infinity: the values
    converted are [uint256] quantities.) *)
Definition toDouble (z : Z) : Z :=
  let a := Z.abs z in
  let e := Z.log2 a - 52 in
  if e <=? 0 then z
  else
    let q := Z.shiftr a e in
    let r := a - Z.shiftl q e in
    let half := Z.shiftl 1 (e - 1) in
    let q' := if r <? half then q
              else if half <? r then q + 1
              else if Z.even q then q else q + 1 in
    Z.sgn z * Z.shiftl q' e.

(** Addition of two doubles holding integers. *)
Definition addDouble (x y : Z) : Z := toDouble (x + y).

(** A JavaScript number as the comparator of [GetAllTXs] sees it: an
    integer-valued double or [NaN]. *)
Inductive Num : Type :=
| NaN
| Int (z : Z).

Definition numSub (a b : Num) : Num :=
  match a, b with
  | Int x, Int y => Int (toDouble (x - y))
  | _, _ => NaN
  end.

(** A property value of an event object. *)
Inductive Val : Type :=
| Undefined
| Str (s : string)
| Obj (props : list (string * string)).

(** [ToNumber]: [undefined] and objects give [NaN]; a string gives the
    number it spells ([""] spells 0). *)
Definition toNumber (v : Val) : Num :=
  match v with
  | Undefined => NaN
  | Obj _ => NaN
  | Str s =>
      if String.eqb s "" then Int 0
      else match parseDecimal s with
           | Some z => Int (toDouble z)
           | None => match hexToZ s with
                     | Some z => Int (toDouble z)
                     | None => NaN
                     end
           end
  end.

(** [o[k]] on an object given by its own properties. *)
Fixpoint lookup {V : Type} (k : string) (o : list (string * V)) : option V :=
  match o with
  | [] => None
  | (k', v) :: r => if String.eqb k k' then Some v else lookup k r
  end.

(** The names under which every plain object (an object literal, a table
    of handlers) finds a member of [Object.prototype] when it has no
    property of its own under that name. *)
Definition objectPrototype : list string :=
  ["constructor"; "__defineGetter__"; "__defineSetter__"; "hasOwnProperty";
   "__lookupGetter__"; "__lookupSetter__"; "isPrototypeOf";
   "propertyIsEnumerable"; "toString"; "valueOf"; "__proto__";
   "toLocaleString"].

(** What the property read [o[k]] finds on a plain object: a property of
    its own, a member inherited from [Object.prototype] (a function, or
    for [__proto__] the prototype itself: truthy, and without the
    properties of a table entry), or [undefined]. *)
Inductive Member (V : Type) : Type :=
| Own (v : V)
| Inherited
| Missing.
Arguments Own {V} v.
Arguments Inherited {V}.
Arguments Missing {V}.

Definition getMember {V : Type} (k : string) (o : list (string * V)) : Member V :=
  match lookup k o with
  | Some v => Own v
  | None => if existsb (String.eqb k) objectPrototype then Inherited else Missing
  end.

(** [bn.toString()]: the decimal digits, after a minus sign below zero. *)
Definition showZ (z : Z) : string := NilZero.string_of_int (Z.to_int z).

(** [web3.utils.toBN] of a string: decimal digits, or hex digits after
    [0x]; [""] and ["0x"] give 0.  [None] stands for the exception raised on
    other strings.  (Signs and surrounding blanks, which the library also
    accepts, do not occur in the values the chain returns.) *)
Definition toBN (s : string) : option Z :=
  if String.eqb s "" then Some 0
  else if String.eqb (substring 0 2 s) "0x"
       then parseDigits 16 (substring 2 (String.length s - 2) s) 0
       else match parseDigits 10 s 0 with
            | Some z => Some z
            | None => parseDigits 16 s 0
            end.

(** The rest of an object after destructuring the properties [ks] away. *)
Definition omit (ks : list string) (o : list (string * string)) : list (string * string) :=
  filter (fun kv => negb (existsb (String.eqb (fst kv)) ks)) o.

(** [s.replace("0x", "")]: the first occurrence of ["0x"], wherever it
    stands, is taken out. *)
Fixpoint remove0x (s : string) : string :=
  match s with
  | EmptyString => EmptyString
  | String c r =>
      match r with
      | String d r' =>
          if (Ascii.eqb c "0" && Ascii.eqb d "x")%bool then r'
          else String c (remove0x r)
      | EmptyString => s
      end
  end.

Section Sort.
Context {A : Type} (cmp : A -> A -> Num).

(** [cmp(a, b) > 0]: the only outcome that moves [a] behind [b]; [NaN]
    counts as [+0]. *)
Definition after (a b : A) : bool :=
  match cmp a b with
  | Int v => 0 <? v
  | NaN => false
  end.

Fixpoint insert (x : A) (l : list A) : list A :=
  match l with
  | [] => [x]
  | y :: r => if after x y then y :: insert x r else x :: l
  end.

(** [Array.prototype.sort(cmp)]: a stable sort (ES2019); for a consistent
    comparator the result does not depend on the algorithm, here
    insertion from the right. *)
Fixpoint sort (l : list A) : list A :=
  match l with
  | [] => []
  | x :: r => insert x (sort r)
  end.
End Sort.

End Js.

(* ================================================================== *)
(** * Chain data *)
(* ================================================================== *)

(** Results of the contract getters, with the fields the sources read.
    Numeric fields hold the value of the returned decimal string
    ([web3.utils.toBN] of it). *)
Record Channel : Type := {
  ch_status : Z;
  ch_token : string
}.

Record PaymentNetwork : Type := {
  pn_userCount : Z;
  pn_userTotalDeposit : Z;
  pn_userTotalWithdraw : Z;
  pn_providerDeposit : Z;
  pn_providerWithdraw : Z;
  pn_providerBalance : Z;
  pn_providerOnchainBalance : Z
}.

Record BalanceProof : Type := {
  bp_balance : Z;
  bp_nonce : Z;
  bp_additionalHash : string;
  bp_partnerSignature : string
}.

(** [rebalanceProofMap(channelID)]: [ProposeReBalance] reads [amount] and
    [nonce], [CloseChannel] reads the other four names. *)
Record RebalanceProof : Type := {
  rp_amount : Z;
  rp_nonce : Z;
  rp_inAmount : string;
  rp_inNonce : string;
  rp_regulatorSignature : string;
  rp_inProviderSignature : string
}.

Record FeeProof : Type := {
  fp_amount : Z;
  fp_nonce : Z
}.

(** An event log as the chain clients deliver it. *)
Record Event : Type := {
  ev_event : string;
  ev_transactionHash : string;
  ev_returnValues : list (string * string)
}.

(** [e[key]] on an event log.  The log has no properties besides those of
    the client's log format; of these the sources read [event],
    [transactionHash] and [returnValues]. *)
Definition getProp (e : Event) (key : string) : Js.Val :=
  if String.eqb key "event" then Js.Str (ev_event e)
  else if String.eqb key "transactionHash" then Js.Str (ev_transactionHash e)
  else if String.eqb key "returnValues" then Js.Obj (ev_returnValues e)
  else Js.Undefined.

(** The two ledgers a watcher or a request can address. *)
Inductive ChainId : Type := Eth | Cita.

Inductive ContractRef : Type := EthPN | AppPN.

(** Calldata of the primary-chain transactions of the operations
    ([....encodeABI()]). *)
Inductive EthCallData : Type :=
| providerDeposit (token : string) (amount : Z)
| approve (spender : string) (amount : Z)
| closeChannel (channelID : string) (balance nonce : Z)
    (additionalHash partnerSignature inAmount inNonce
     regulatorSignature inProviderSignature : string).

(** The transaction object handed to [ethereumjs-tx]. *)
Record RawTx : Type := {
  tx_from : string;
  tx_nonce : Z;
  tx_chainId : Z;
  tx_to : string;
  tx_data : EthCallData;
  tx_value : Z;
  tx_gasPrice : Z;
  tx_gasLimit : Z
}.

(** What [sendSignedTransaction] emits first. *)
Inductive TxEvent : Type :=
| OnTransactionHash (hash : string)
| OnError (error : string).

(** The method calls on the application-chain contract that the operations
    send as transactions, and the one the [Transfer] handler builds. *)
Inductive AppCall : Type :=
| providerProposeWithdraw (token : string) (balance lastCommitBlock : Z)
| proposeRebalance (channelID : string) (amount nonce : Z) (signature : string)
| transfer (to channelID : string) (balance nonce : Z)
    (additionalHash signature : string)
| submitFee (channelID token : string) (feeAmount feeNonce : Z) (signature : string).

(** The transaction envelope of the application chain ([BuildAppChainTX]);
    the fields of [TX_BASE] are carried along unchanged and are not
    represented. *)
Record AppTx : Type := {
  atx_privateKey : string;
  atx_from : string;
  atx_validUntilBlock : Z
}.

Record SendResult : Type := { rs_hash : option string }.

Record Receipt : Type := { errorMessage : option string }.

(** Payloads delivered to the external callbacks. *)
Inductive CallbackPayload : Type :=
| TRANSFER_EVENT (from to : option string) (token : string)
    (amount additionalHash totalTransferredAmount : option string)
| OTHER_EVENT (fields : list (string * string)).

(* ================================================================== *)
(** * Requests and programs *)
(* ================================================================== *)

(** The requests the code makes to its collaborators; the index is the type
    of the answer. *)
Inductive Eff : Type -> Type :=
| EthGetChannelID (user token : string) : Eff string
| AppChannelMap (channelID : string) : Eff Channel
| AppPaymentNetworkMap (token : string) : Eff PaymentNetwork
| AppRebalanceProofMap (channelID : string) : Eff RebalanceProof
| AppBalanceProofMap (channelID address : string) : Eff BalanceProof
| AppFeeProofMap (token : string) : Eff FeeProof
| AppFeeRateMap (token : string) : Eff Z
| GetBlockNumber (base : ChainId) : Eff Z
| EthGetTransactionCount (from : string) : Eff Z
| EthNetGetId : Eff Z
| EthGetGasPrice : Eff Z
| EthSendSignedTransaction (rawTx : RawTx) (key : string) : Eff TxEvent
| AppSend (call : AppCall) (tx : AppTx) : Eff SendResult
| ListenToTransactionReceipt (hash : string) : Eff Receipt
| GetPastEvents (contract : ContractRef) (eventName : string)
    (filter : list (string * string)) (range : option (Z * Z)) : Eff (list Event)
| CallbacksGet (event : string) : Eff bool
| Callback (event : string) (payload : CallbackPayload) : Eff unit
| ReadEnabled : Eff bool
| Sleep (time : Z) : Eff unit
| LoggerError (message : string) : Eff unit.

(** How a request settles: a value, or the rejection of its promise (an
    exception for the synchronous ones). *)
Inductive Settled (R : Type) : Type :=
| Fulfilled (r : R)
| Rejected (err : string).
Arguments Fulfilled {R} r.
Arguments Rejected {R} err.

(** An asynchronous function body.  [Vis e k] issues request [e] and
    continues with [k] once it settles; [Throw] is a rejection of the
    function's own promise; [Hang] waits on a promise that never settles;
    [Fork c k] calls the asynchronous function [c] without awaiting it. *)
Inductive Prog (A : Type) : Type :=
| Ret (a : A)
| Throw (err : string)
| Hang
| Vis {R : Type} (e : Eff R) (k : Settled R -> Prog A)
| Fork (child : Prog unit) (k : Prog A).
Arguments Ret {A} a.
Arguments Throw {A} err.
Arguments Hang {A}.
Arguments Vis {A R} e k.
Arguments Fork {A} child k.

Fixpoint bind {A B : Type} (p : Prog A) (f : A -> Prog B) : Prog B :=
  match p with
  | Ret a => f a
  | Throw err => Throw err
  | Hang => Hang
  | Vis e k => Vis e (fun s => bind (k s) f)
  | Fork c k => Fork c (bind k f)
  end.

(** [await e] (also a synchronous call that may throw). *)
Definition await {R : Type} (e : Eff R) : Prog R :=
  Vis e (fun s => match s with
                  | Fulfilled r => Ret r
                  | Rejected err => Throw err
                  end).

(** [Promise.all([a, b])]: both requests are issued; the result is rejected
    when either is. *)
Definition awaitBoth {R1 R2 : Type} (e1 : Eff R1) (e2 : Eff R2) : Prog (R1 * R2) :=
  Vis e1 (fun s1 =>
  Vis e2 (fun s2 =>
    match s1, s2 with
    | Fulfilled r1, Fulfilled r2 => Ret (r1, r2)
    | Rejected err, _ => Throw err
    | _, Rejected err => Throw err
    end)).

(** [try { p } catch (err) { h err }]; a forked call is outside the [try]. *)
Fixpoint tryCatch {A : Type} (p : Prog A) (h : string -> Prog A) : Prog A :=
  match p with
  | Ret a => Ret a
  | Throw err => h err
  | Hang => Hang
  | Vis e k => Vis e (fun s => tryCatch (k s) h)
  | Fork c k => Fork c (tryCatch k h)
  end.

Declare Scope prog_scope.
Delimit Scope prog_scope with prog.
Notation "x <- p ;; q" := (bind p (fun x => q))
  (at level 100, p at next level, right associativity) : prog_scope.
Notation "p ;; q" := (bind p (fun _ => q))
  (at level 100, right associativity) : prog_scope.
Open Scope prog_scope.

(** [for (let x of l) { await body(x) }] *)
Fixpoint forEach {A : Type} (l : list A) (body : A -> Prog unit) : Prog unit :=
  match l with
  | [] => Ret tt
  | x :: r => body x ;; forEach r body
  end.

(** How a run of an asynchronous function ends. *)
Inductive Outcome (A : Type) : Type :=
| Returned (a : A)
| Thrown (err : string)
| Pending.
Arguments Returned {A} a.
Arguments Thrown {A} err.
Arguments Pending {A}.

(** A request as recorded in a trace. *)
Inductive Action : Type :=
| Act {R : Type} (e : Eff R).

(** The requests that submit a transaction to a ledger. *)
Definition isSubmission (a : Action) : bool :=
  match a with
  | Act (EthSendSignedTransaction _ _) => true
  | Act (AppSend _ _) => true
  | Act _ => false
  end.

Definition submissions (tr : list Action) : list Action := filter isSubmission tr.


(** The calls of an external callback. *)
Definition isCallback (a : Action) : bool :=
  match a with
  | Act (Callback _ _) => true
  | Act _ => false
  end.

Definition deliveries (tr : list Action) : list Action := filter isCallback tr.

Section Run.
Context {W : Type}.
(** The environment: its answer to a request and its next state. *)
Variable respond : forall R : Type, Eff R -> W -> Settled R * W.

(** Run a program to its end.  A forked call is run to its end at the fork
    point and its outcome is dropped. *)
Fixpoint run {A : Type} (p : Prog A) (w : W) : Outcome A * list Action * W :=
  match p with
  | Ret a => (Returned a, [], w)
  | Throw err => (Thrown err, [], w)
  | Hang => (Pending, [], w)
  | Vis e k =>
      let (s, w1) := respond _ e w in
      let '(o, tr, w2) := run (k s) w1 in
      (o, Act e :: tr, w2)
  | Fork c k =>
      let '(_, tr1, w1) := run c w in
      let '(o, tr2, w2) := run k w1 in
      (o, tr1 ++ tr2, w2)
  end.
End Run.

(** An environment whose answers do not change while one call runs. *)
Definition Oracle : Type := forall R : Type, Eff R -> Settled R.

Definition runOn {A : Type} (o : Oracle) (p : Prog A) : Outcome A * list Action :=
  fst (run (fun R e (w : unit) => (o R e, w)) p tt).

(** What a promise of [SendEthTransaction] comes to, given the answer to
    the broadcast. *)
Definition settles (answer : Settled TxEvent) : Outcome string :=
  match answer with
  | Fulfilled (OnTransactionHash hash) => Returned hash
  | Fulfilled (OnError _) => Pending
  | Rejected _ => Pending
  end.

Definition outcome {A : Type} (r : Outcome A * list Action) : Outcome A := fst r.
Definition trace {A : Type} (r : Outcome A * list Action) : list Action := snd r.

(** The run of [p] followed, when it returns, by the run of [f] on its
    result. *)
Definition andThen {A B : Type} (o : Oracle) (r : Outcome A * list Action)
    (f : A -> Prog B) : Outcome B * list Action :=
  match r with
  | (Returned a, tr) => (outcome (runOn o (f a)), tr ++ trace (runOn o (f a)))
  | (Thrown err, tr) => (Thrown err, tr)
  | (Pending, tr) => (Pending, tr)
  end.

(** ** Interleaved runs *)

(** A call in flight, whatever its result type. *)
Inductive Task : Type :=
| task {A : Type} (p : Prog A).

Section Interleave.
Context {W : Type}.
Variable respond : forall R : Type, Eff R -> W -> Settled R * W.

(** One step of a task: it issues its next request and takes the answer,
    or starts a forked call as a task of its own.  A finished task stays
    as it is. *)
Definition stepTask (t : Task) (w : W) : Task * list Task * list Action * W :=
  match t with
  | task p =>
      match p with
      | Vis e k => let (s, w1) := respond _ e w in (task (k s), [], [Act e], w1)
      | Fork c k => (task k, [task c], [], w)
      | _ => (t, [], [], w)
      end
  end.

Fixpoint setNth {X : Type} (i : nat) (x : X) (l : list X) : list X :=
  match l, i with
  | [], _ => []
  | _ :: r, O => x :: r
  | y :: r, S j => y :: setNth j x r
  end.

(** Run the pool along a schedule: each entry names the task that takes
    the next step.  The trace records who issued what. *)
Fixpoint interleave (schedule : list nat) (pool : list Task) (w : W)
  : list (nat * Action) * list Task * W :=
  match schedule with
  | [] => ([], pool, w)
  | i :: rest =>
      match nth_error pool i with
      | None => interleave rest pool w
      | Some t =>
          let '(t1, forked, acts, w1) := stepTask t w in
          let '(tr, pool2, w2) := interleave rest (setNth i t1 pool ++ forked) w1 in
          (map (pair i) acts ++ tr, pool2, w2)
      end
  end.
End Interleave.

(* ================================================================== *)
(** * Configuration and library functions *)
(* ================================================================== *)

(** An argument of [web3.utils.soliditySha3]: a value and its Solidity
    type. *)
Inductive SolArg : Type :=
| t_address (v : string)
| t_bytes32 (v : string)
| t_uint256 (v : Z).

(** The object handed to [signHash]. *)
Record BalanceProofMessage : Type := {
  channelID : string;
  balance : Z;
  nonce : Z;
  additionalHash : string
}.

(** What the sources import from [conf/contract], [lib/sign] and the
    cryptographic libraries, and the module-level handles [Init] sets up.
    None of it is among the sources; the operations are defined for any
    value of it. *)
Record Env : Type := {
  ADDRESS_ZERO : string;
  CHANNEL_STATUS_OPEN : Z;
  COMMIT_BLOCK_CONDITION : Z;
  ethPN_address : string;          (* ethPN.options.address *)
  cpProvider_address : string;     (* cpProvider.address *)
  cpProvider_privateKey : string;  (* cpProvider.privateKey *)
  soliditySha3 : list SolArg -> string;
  signHash : BalanceProofMessage -> string;
  (* ethUtil.toRpcSig of ethUtil.ecsign, on hex-decoded buffers *)
  ecsign : string -> string -> string
}.

(** The all-zero hash the [Transfer] handler compares against. *)
Definition ZERO_HASH : string :=
  "0x0000000000000000000000000000000000000000000000000000000000000000".

(** What the public operations return. *)
Inductive OpResult : Type :=
| RFalse
| RString (s : string).

(* ================================================================== *)
(** * [Common] (src/lib/common.ts) *)
(* ================================================================== *)

Module Common.
Section WithEnv.
Variable env : Env.

Definition GetLastCommitBlock (chain : string) : Prog Z :=
  if String.eqb chain "eth"
  then (n <- await (GetBlockNumber Eth) ;; Ret (n + COMMIT_BLOCK_CONDITION env))
  else (n <- await (GetBlockNumber Cita) ;; Ret (n + 88)).

(** The promise built at the end resolves on [transactionHash]; its
    [reject] calls are commented out, so on [error], and on an exception
    of the send itself, it never settles. *)
Definition SendEthTransaction (from to : string) (value : Z) (data : EthCallData)
  : Prog string :=
  nonce <- await (EthGetTransactionCount from) ;;
  chainId <- await EthNetGetId ;;
  gasPrice <- await EthGetGasPrice ;;
  let rawTx := {| tx_from := from; tx_nonce := nonce; tx_chainId := chainId;
                  tx_to := to; tx_data := data; tx_value := value;
                  tx_gasPrice := gasPrice; tx_gasLimit := 300000 |} in
  let priKey := Js.strip0x (cpProvider_privateKey env) in
  Vis (EthSendSignedTransaction rawTx priKey)
      (fun s => match s with
                | Fulfilled (OnTransactionHash value) => Ret value
                | Fulfilled (OnError _) => Hang
                | Rejected _ => Hang
                end).

Definition BuildAppChainTX : Prog AppTx :=
  validUntilBlock <- GetLastCommitBlock "cita" ;;
  Ret {| atx_privateKey := cpProvider_privateKey env;
         atx_from := cpProvider_address env;
         atx_validUntilBlock := validUntilBlock |}.

Definition SignatureToHex (messageHash : string) : string :=
  ecsign env (Js.strip0x messageHash) (Js.strip0x (cpProvider_privateKey env)).

Section Recover.
(** The address, in hex, that [ethUtil.pubToAddress] gives for the key that
    [ethUtil.ecrecover] recovers from the hex-decoded hash and signature;
    the curve arithmetic is not among the sources. *)
Variable recover : string -> string -> string.

Definition CheckSignature (messageHash signature address : string) : bool :=
  let recoveredAddress :=
    String.append "0x" (recover (Js.remove0x messageHash) (Js.remove0x signature)) in
  String.eqb (Js.toLowerCase recoveredAddress) (Js.toLowerCase address).
End Recover.

End WithEnv.
End Common.

(* ================================================================== *)
(** * [SDK] (src/lib/server.ts) *)
(* ================================================================== *)

Module SDK.
Section WithEnv.
Variable env : Env.

(** [rs.hash], then [receipt.errorMessage], as every application-chain
    submission of the SDK interprets them. *)
Definition confirm (rs : SendResult) : Prog OpResult :=
  match rs_hash rs with
  | Some hash =>
      if String.eqb hash "" then Ret (RString "send CITA tx fail")
      else
        receipt <- await (ListenToTransactionReceipt hash) ;;
        if negb (Js.truthy (errorMessage receipt))
        then Ret (RString "confirm success")
        else Ret (RString "confirm fail")
  | None => Ret (RString "send CITA tx fail")
  end.

Definition Deposit (amount : Z) (token : string) : Prog string :=
  let amountBN := amount in
  let data := providerDeposit token amountBN in
  if negb (String.eqb token (ADDRESS_ZERO env)) then
    let erc20Data := approve (ethPN_address env) amountBN in
    Common.SendEthTransaction env (cpProvider_address env) (ethPN_address env) 0 erc20Data ;;
    hash <- Common.SendEthTransaction env (cpProvider_address env) (ethPN_address env) 0 data ;;
    Ret hash
  else
    hash <- Common.SendEthTransaction env (cpProvider_address env) (ethPN_address env) amountBN data ;;
    Ret hash.

Definition ProposeWithdraw (amount : Z) (token : string) : Prog OpResult :=
  let amountBN := amount in
  pn <- await (AppPaymentNetworkMap token) ;;
  let onChainBalanceBN := pn_providerOnchainBalance pn in
  let balanceBN := pn_providerBalance pn in
  if onChainBalanceBN <? amountBN then Ret RFalse
  else
    let balance := pn_providerOnchainBalance pn - amount in
    if balanceBN <? balance then Ret RFalse
    else
      tx <- Common.BuildAppChainTX env ;;
      lastCommitBlock <- Common.GetLastCommitBlock env "eth" ;;
      rs <- await (AppSend (providerProposeWithdraw token balance lastCommitBlock) tx) ;;
      confirm rs.

Definition ProposeReBalance (userAddress : string) (amount : Z) (token : string)
  : Prog OpResult :=
  channelID <- await (EthGetChannelID userAddress token) ;;
  channel <- await (AppChannelMap channelID) ;;
  if negb (Js.toDouble (ch_status channel) =? CHANNEL_STATUS_OPEN env)
  then Throw "channel status is not open"
  else
    let amountBN := amount in
    pn <- await (AppPaymentNetworkMap token) ;;
    let providerBalanceBN := pn_providerBalance pn in
    rp <- await (AppRebalanceProofMap channelID) ;;
    let balanceBN := rp_amount rp in
    if providerBalanceBN <? amountBN - balanceBN then Ret RFalse
    else
      let reBalanceAmountBN := balanceBN + amountBN in
      let nonce := rp_nonce rp + 1 in
      let messageHash := soliditySha3 env
            [t_address (ethPN_address env); t_bytes32 channelID;
             t_uint256 reBalanceAmountBN; t_uint256 nonce] in
      let signature := Common.SignatureToHex env messageHash in
      tx <- Common.BuildAppChainTX env ;;
      rs <- await (AppSend (proposeRebalance channelID reBalanceAmountBN nonce signature) tx) ;;
      confirm rs.

Definition CloseChannel (userAddress token : string) : Prog unit :=
  channelID <- await (EthGetChannelID userAddress token) ;;
  channel <- await (AppChannelMap channelID) ;;
  if negb (Js.toDouble (ch_status channel) =? CHANNEL_STATUS_OPEN env)
  then Throw "channel status is not open"
  else
    proofs <- awaitBoth (AppBalanceProofMap channelID (cpProvider_address env))
                        (AppRebalanceProofMap channelID) ;;
    let (bp, rp) := proofs : BalanceProof * RebalanceProof in
    let data := closeChannel channelID (bp_balance bp) (bp_nonce bp)
                  (bp_additionalHash bp) (bp_partnerSignature bp)
                  (rp_inAmount rp) (rp_inNonce rp)
                  (rp_regulatorSignature rp) (rp_inProviderSignature rp) in
    Common.SendEthTransaction env (cpProvider_address env) (ethPN_address env) 0 data ;;
    Ret tt.

Definition SendAsset (to : string) (amount : Z) (token : string) : Prog OpResult :=
  channelID <- await (EthGetChannelID to token) ;;
  channel <- await (AppChannelMap channelID) ;;
  if negb (Js.toDouble (ch_status channel) =? CHANNEL_STATUS_OPEN env)
  then Throw "channel status is not open"
  else
    tx <- Common.BuildAppChainTX env ;;
    let amountBN := amount in
    bp <- await (AppBalanceProofMap channelID to) ;;
    let balanceBN := bp_balance bp in
    let assetAmountBN := amountBN + balanceBN in
    let nonce := bp_nonce bp + 1 in
    let additionalHash := "0x0" in
    let messageHash := signHash env
          {| channelID := channelID; balance := assetAmountBN;
             nonce := nonce; additionalHash := additionalHash |} in
    let signature := Common.SignatureToHex env messageHash in
    rs <- await (AppSend (transfer to channelID assetAmountBN nonce additionalHash signature) tx) ;;
    confirm rs.

(** ** The transaction history *)

(** The object literal [{ id: tx.transactionHash, amount, ...rest }] by its
    three parts, in the order in which they are written; [amount] holds the
    number whose decimal string the code writes. *)
Record TX : Type := {
  id : string;
  amount : Z;
  rest : list (string * string)
}.

(** [t[k]] on the object that the literal makes: the properties of [rest]
    are copied in last, so that a value logged under the name [id] or
    [amount] replaces the one written before it. *)
Definition prop (t : TX) (k : string) : option string :=
  match Js.lookup k (rest t) with
  | Some v => Some v
  | None =>
      if String.eqb k "id" then Some (id t)
      else if String.eqb k "amount" then Some (Js.showZ (amount t))
      else None
  end.

(** [(a, b) => a[key] - b[key]]: the operands are properties of the event
    logs themselves. *)
Definition cmpNonce (key : string) (a b : Event) : Js.Num :=
  Js.numSub (Js.toNumber (getProp a key)) (Js.toNumber (getProp b key)).

(** [new BN(balance)]: a missing or empty value gives 0, a string of
    decimal digits (the form in which the chain returns a [uint256]) its
    value.  [None]: any other string; the library does not check the
    characters and makes some number of them, which is not followed
    here. *)
Definition newBN (v : option string) : option Z :=
  match v with
  | None => Some 0
  | Some s => if String.eqb s "" then Some 0 else Js.parseDecimal s
  end.

(** [getTX], with the captured variable [lastBalance] passed in and out. *)
Definition getTX (lastBalance : Z) (tx : Event) : option (TX * Z) :=
  let returnValues := ev_returnValues tx in
  match newBN (Js.lookup "balance" returnValues) with
  | Some balance =>
      Some ({| id := ev_transactionHash tx;
               amount := balance - lastBalance;
               rest := Js.omit ["channelID"; "balance"] returnValues |},
            balance)
  | None => None
  end.

(** [txs.map(tx => getTX(tx))] *)
Fixpoint mapTX (lastBalance : Z) (txs : list Event) : option (list TX * Z) :=
  match txs with
  | [] => Some ([], lastBalance)
  | tx :: r =>
      match getTX lastBalance tx with
      | Some (t, lastBalance1) =>
          match mapTX lastBalance1 r with
          | Some (ts, lastBalance2) => Some (t :: ts, lastBalance2)
          | None => None
          end
      | None => None
      end
  end.

(** The computation of [GetAllTXs] after the two queries: [lastBalance]
    starts at 0 and is not reset between the two lists.  [None]: one of the
    logged balances is outside the strings that [newBN] follows. *)
Definition allTXs (inTXs outTXs : list Event) : option (list TX * list TX) :=
  match mapTX 0 (Js.sort (cmpNonce "nonce") inTXs) with
  | Some (ins, lastBalance) =>
      match mapTX lastBalance (Js.sort (cmpNonce "nonce") outTXs) with
      | Some (outs, _) => Some (ins, outs)
      | None => None
      end
  | None => None
  end.

Definition GetAllTXs (token : string) : Prog (option (list TX * list TX)) :=
  both <- awaitBoth
            (GetPastEvents AppPN "Transfer" [("to", cpProvider_address env)] None)
            (GetPastEvents AppPN "Transfer" [("from", cpProvider_address env)] None) ;;
  Ret (allTXs (fst both) (snd both)).

(** ** Queries *)

(** What [GetChannelInfo] returns: [{ channel: {} }], or the record of the
    channel. *)
Inductive ChannelInfo : Type :=
| NoChannel
| Info (channel : Channel).

Definition GetChannelInfo (userAddress token : string) : Prog ChannelInfo :=
  channelID <- await (EthGetChannelID userAddress token) ;;
  if String.eqb channelID "" then Ret NoChannel
  else
    channel <- await (AppChannelMap channelID) ;;
    Ret (Info channel).

End WithEnv.
End SDK.


(* ================================================================== *)
(** * [CITA_EVENTS] (src/listener/cita_events.ts) *)
(* ================================================================== *)

Module CITA_EVENTS.
Section WithEnv.
Variable env : Env.

(** [web3.utils.toBN] of a property of the event; it raises on a missing
    one. *)
Definition bn (v : option string) : option Z :=
  match v with
  | Some s => Js.toBN s
  | None => None
  end.

(** The handler of [Transfer].  A log without [channelID] makes the first
    contract call raise.  The last statement calls [Common.SendAppChainTX],
    and the class [Common] (src/lib/common.ts) has no member of that name:
    once the argument, the [submitFee] call, is built, calling the missing
    member raises a [TypeError], which ends the handler; nothing has been
    submitted.  The texts of the exceptions, which the runtime and the
    libraries raise, are stand-ins. *)
Definition Transfer_handler (event : Event) : Prog unit :=
  let returnValues := ev_returnValues event in
  let from := Js.lookup "from" returnValues in
  let to := Js.lookup "to" returnValues in
  let transferAmount := Js.lookup "transferAmount" returnValues in
  let additionalHash := Js.lookup "additionalHash" returnValues in
  let balance := Js.lookup "balance" returnValues in
  match Js.lookup "channelID" returnValues with
  | Some channelID =>
      channel <- await (AppChannelMap channelID) ;;
      let token := ch_token channel in
      let assetEvent :=
        TRANSFER_EVENT from to token transferAmount additionalHash balance in
      registered <- await (CallbacksGet "Transfer") ;;
      (if registered &&
          match additionalHash with
          | Some h => String.eqb h ZERO_HASH
          | None => false
          end
       then await (Callback "Transfer" assetEvent)
       else Ret tt) ;;
      fp <- await (AppFeeProofMap token) ;;
      let feeProofAmount := fp_amount fp in
      let road := fp_nonce fp in
      feeRate <- await (AppFeeRateMap token) ;;
      if Js.toDouble feeRate =? 0 then Ret tt
      else
        bp <- await (AppBalanceProofMap channelID (cpProvider_address env)) ;;
        let amount := bp_balance bp in
        match bn balance with
        | Some balanceBN =>
            let feeAmount :=
              feeProofAmount + Z.quot (feeRate * (balanceBN - amount)) 10000 in
            let feeNonce := Js.addDouble (Js.toDouble road) 1 in
            let messageHash := soliditySha3 env
                  [t_address (ethPN_address env); t_address token;
                   t_uint256 feeAmount; t_uint256 feeNonce] in
            let signature := Common.SignatureToHex env messageHash in
            let call := submitFee channelID token feeAmount feeNonce signature in
            Throw "TypeError: Common.SendAppChainTX is not a function"
        | None => Throw "invalid number value"
        end
  | None => Throw "invalid channelID"
  end.

End WithEnv.
End CITA_EVENTS.

(* ================================================================== *)
(** * [HttpWatcher] (src/listener/listener.ts) *)
(* ================================================================== *)

Module HttpWatcher.

(** An entry of an event table; [filter] is the object its [filter()]
    returns. *)
Record EventSetting : Type := {
  filter : list (string * string);
  handler : Event -> Prog unit
}.

Record WatchItem : Type := {
  contract : ContractRef;
  listener : list (string * EventSetting)
}.

(** The fields set by the constructor; [enabled], the one field that
    changes afterwards, is read through [ReadEnabled].  Block numbers are
    integers far below 2^53, where the arithmetic of doubles is exact. *)
Record t : Type := {
  base : ChainId;
  provider : string;
  blockInterval : Z;
  watchList : list WatchItem
}.

(** The loop over the keys of [filter] in [processAllEvent].  (The keys of
    a filter are names of event parameters, written in the table; the
    tables of the sources have [to] and no other.) *)
Definition filterResult (returnValues filter : list (string * string)) : bool :=
  forallb (fun kv =>
             match Js.lookup (fst kv) returnValues with
             | Some v => negb (String.eqb v "") &&
                         String.eqb (Js.toLowerCase v) (Js.toLowerCase (snd kv))
             | None => false
             end) filter.

(** The handler is called inside [try] but not awaited: a rejection of its
    promise is not caught, and the loop goes on either way. *)
Definition processEvent (fromBlockNumber toBlockNumber : Z) (contract : ContractRef)
    (eventName : string) (eventSetting : EventSetting) : Prog unit :=
  events <- await (GetPastEvents contract eventName (filter eventSetting)
                     (Some (fromBlockNumber, toBlockNumber))) ;;
  forEach events (fun event => Fork (handler eventSetting event) (Ret tt)).

(** The handler is awaited, outside any [try].  The table is a plain
    object: under the name of a member of [Object.prototype] the test
    [watchItem.listener[eventName]] finds that member, which has no
    [filter], and the call [.filter()] raises a [TypeError]. *)
Definition processAllEvent (fromBlockNumber toBlockNumber : Z) (watchItem : WatchItem)
  : Prog unit :=
  events <- await (GetPastEvents (contract watchItem) "allEvents" []
                     (Some (fromBlockNumber, toBlockNumber))) ;;
  forEach events (fun event =>
    match Js.getMember (ev_event event) (listener watchItem) with
    | Js.Own setting =>
        if filterResult (ev_returnValues event) (filter setting)
        then handler setting event
        else Ret tt
    | Js.Inherited =>
        Throw "TypeError: watchItem.listener[eventName].filter is not a function"
    | Js.Missing => Ret tt
    end).

(** The loop over [watchList] in [start]: [processAllEvent] is called
    without [await]; the result tells whether [start] returns because the
    watcher was disabled. *)
Fixpoint scan (lastBlockNumber currentBlockNumber : Z) (items : list WatchItem)
  : Prog bool :=
  match items with
  | [] => Ret false
  | watchItem :: r =>
      Fork (processAllEvent lastBlockNumber currentBlockNumber watchItem)
           (enabled <- await ReadEnabled ;;
            if negb enabled then Ret true
            else scan lastBlockNumber currentBlockNumber r)
  end.

(** Where [start] stands when the iterations it was given are used up. *)
Inductive State : Type :=
| Stopped
| Syncing (lastBlockNumber currentBlockNumber : Z)
| Watching (currentBlockNumber : Z).

Section Loops.
Variable w : t.

(** [lastBlockNumber = lastBlockNumber || currentBlockNumber - 10] *)
Definition startBlock (lastBlockNumber currentBlockNumber : Z) : Z :=
  if lastBlockNumber =? 0 then currentBlockNumber - 10 else lastBlockNumber.

(** The second loop, [while (true)], for at most [ticks] iterations. *)
Fixpoint watching (ticks : nat) (currentBlockNumber : Z) : Prog State :=
  match ticks with
  | O => Ret (Watching currentBlockNumber)
  | S n =>
      await (Sleep (blockInterval w)) ;;
      let lastBlockNumber := currentBlockNumber + 1 in
      Vis (GetBlockNumber (base w)) (fun s =>
        match s with
        | Rejected err =>
            await (LoggerError err) ;; watching n currentBlockNumber
        | Fulfilled current =>
            if current <? lastBlockNumber then watching n current
            else
              stop <- tryCatch
                        (scan lastBlockNumber current (watchList w))
                        (fun err => await (LoggerError err) ;; Ret false) ;;
              if (stop : bool) then Ret Stopped else watching n current
        end)
  end.

(** The first loop, for at most [rounds] iterations, then the second. *)
Fixpoint syncing (rounds ticks : nat) (lastBlockNumber currentBlockNumber : Z)
  : Prog State :=
  match rounds with
  | O => Ret (Syncing lastBlockNumber currentBlockNumber)
  | S n =>
      if lastBlockNumber <=? currentBlockNumber then
        stop <- scan lastBlockNumber currentBlockNumber (watchList w) ;;
        if (stop : bool) then Ret Stopped
        else
          current <- await (GetBlockNumber (base w)) ;;
          syncing n ticks (currentBlockNumber + 1) current
      else watching ticks currentBlockNumber
  end.

Definition start (rounds ticks : nat) (lastBlockNumber : Z) : Prog State :=
  currentBlockNumber <- await (GetBlockNumber (base w)) ;;
  syncing rounds ticks (startBlock lastBlockNumber currentBlockNumber)
          currentBlockNumber.
End Loops.

(** The block range of the first log query in a trace. *)
Fixpoint firstScan (tr : list Action) : option (Z * Z) :=
  match tr with
  | [] => None
  | Act e :: r =>
      match e with
      | GetPastEvents _ _ _ range => range
      | _ => firstScan r
      end
  end.

(** An event whose name the table does not have as a property of its own
    but finds in [Object.prototype]. *)
Definition inherited (watchItem : WatchItem) (event : Event) : bool :=
  match Js.getMember (ev_event event) (listener watchItem) with
  | Js.Inherited => true
  | _ => false
  end.

(** The handler call that [processAllEvent] makes for an event: the one of
    the table entry under the event's name, when the filter of that entry
    passes. *)
Definition dispatch (watchItem : WatchItem) (event : Event) : option (Prog unit) :=
  match Js.lookup (ev_event event) (listener watchItem) with
  | Some setting =>
      if filterResult (ev_returnValues event) (filter setting)
      then Some (handler setting event)
      else None
  | None => None
  end.

(** What the loop of [processAllEvent] awaits for one event. *)
Definition reaction (watchItem : WatchItem) (event : Event) : Prog unit :=
  if inherited watchItem event
  then Throw "TypeError: watchItem.listener[eventName].filter is not a function"
  else match dispatch watchItem event with
       | Some call => call
       | None => Ret tt
       end.

(** The handler calls for a list of events, in order. *)
Definition dispatches (watchItem : WatchItem) (events : list Event) : list (Prog unit) :=
  flat_map (fun event => match dispatch watchItem event with
                         | Some call => [call]
                         | None => []
                         end) events.

(** The block ranges of all log queries in a trace, in order. *)
Fixpoint scanRanges (tr : list Action) : list (Z * Z) :=
  match tr with
  | [] => []
  | Act e :: r =>
      match e with
      | GetPastEvents _ _ _ (Some range) => range :: scanRanges r
      | _ => scanRanges r
      end
  end.

(** The ranges the second loop scans, tick by tick, when the head is read
    as [heads] and the last head read before was [currentBlockNumber]. *)
Fixpoint tickRanges (currentBlockNumber : Z) (heads : list Z) : list (Z * Z) :=
  match heads with
  | [] => []
  | head :: r =>
      if head <? currentBlockNumber + 1 then tickRanges head r
      else (currentBlockNumber + 1, head) :: tickRanges head r
  end.

(** A run that neither ends with the poller stopped nor reads the
    [enabled] flag. *)
Definition neverStops (r : Outcome State * list Action) : Prop :=
  outcome r <> Returned Stopped /\ ~ In (Act ReadEnabled) (trace r).



End HttpWatcher.

(** ** The table of the application chain *)

Module Table.

(** The entry of [CITA_EVENTS] under the name [Transfer]: its filter is
    [{ to: cpProvider.address }]. *)
Definition Transfer (env : Env) : HttpWatcher.EventSetting := {|
  HttpWatcher.filter := [("to", cpProvider_address env)];
  HttpWatcher.handler := CITA_EVENTS.Transfer_handler env
|}.

End Table.

(** ** Head readings that change *)

Module Heads.

(** An environment in which the successive readings of the block number are
    the given list (a reading beyond the list fails) and every other request
    is answered by a fixed oracle. *)
Definition respond (o : Oracle) (R : Type) (e : Eff R) (heads : list Z)
  : Settled R * list Z :=
  match e in Eff R0 return Settled R0 -> Settled R0 * list Z with
  | GetBlockNumber _ =>
      fun _ => match heads with
               | head :: r => (Fulfilled head, r)
               | [] => (Rejected "no block number", [])
               end
  | _ => fun answer => (answer, heads)
  end (o R e).

End Heads.

(* ================================================================== *)
(** * Environments *)
(* ================================================================== *)

(** A view of both ledgers that stays fixed while a call runs: what each
    getter returns, and how each submission ends. *)
Record Snapshot : Type := {
  s_channelID : string -> string -> string;
  s_channel : string -> Channel;
  s_paymentNetwork : string -> PaymentNetwork;
  s_rebalanceProof : string -> RebalanceProof;
  s_balanceProof : string -> string -> BalanceProof;
  s_feeProof : string -> FeeProof;
  s_feeRate : string -> Z;
  s_blockNumber : ChainId -> Z;
  s_transactionCount : string -> Z;
  s_ethSend : RawTx -> TxEvent;
  s_appSend : AppCall -> SendResult;
  s_receipt : string -> Receipt;
  s_pastEvents : ContractRef -> string -> list (string * string) -> list Event;
  s_callbacks : string -> bool;
  s_enabled : bool
}.

Definition oracleOf (s : Snapshot) : Oracle :=
  fun R e =>
    match e in Eff R return Settled R with
    | EthGetChannelID user token => Fulfilled (s_channelID s user token)
    | AppChannelMap channelID => Fulfilled (s_channel s channelID)
    | AppPaymentNetworkMap token => Fulfilled (s_paymentNetwork s token)
    | AppRebalanceProofMap channelID => Fulfilled (s_rebalanceProof s channelID)
    | AppBalanceProofMap channelID address => Fulfilled (s_balanceProof s channelID address)
    | AppFeeProofMap token => Fulfilled (s_feeProof s token)
    | AppFeeRateMap token => Fulfilled (s_feeRate s token)
    | GetBlockNumber base => Fulfilled (s_blockNumber s base)
    | EthGetTransactionCount from => Fulfilled (s_transactionCount s from)
    | EthNetGetId => Fulfilled 1
    | EthGetGasPrice => Fulfilled 1000000000
    | EthSendSignedTransaction rawTx _ => Fulfilled (s_ethSend s rawTx)
    | AppSend call _ => Fulfilled (s_appSend s call)
    | ListenToTransactionReceipt hash => Fulfilled (s_receipt s hash)
    | GetPastEvents contract eventName filter _ =>
        Fulfilled (s_pastEvents s contract eventName filter)
    | CallbacksGet event => Fulfilled (s_callbacks s event)
    | Callback _ _ => Fulfilled tt
    | ReadEnabled => Fulfilled (s_enabled s)
    | Sleep _ => Fulfilled tt
    | LoggerError _ => Fulfilled tt
    end.

(** ** A ledger that records proofs *)

Module Ledger.

(** Modelled from the spec: the application-chain contract, which is not
    part of this repository.  Section 3 of the specification has the
    nonce of a balance proof "strictly increase by 1 per proof" and its
    cumulative balance never decrease, gives the rebalance proof the "same
    monotonic/nonce invariants, independent nonce stream", and section 5
    has the contract "accept only one of two proofs bearing the same
    nonce": a proof is accepted, and stored in place of the one before it,
    when its nonce is the stored nonce plus 1 and its amount is not below
    the stored one; otherwise its receipt carries an error. *)
Record t : Type := {
  channels : string -> Channel;
  networks : string -> PaymentNetwork;
  proofs : string -> string -> BalanceProof;
  rebalances : string -> RebalanceProof;
  receipts : string -> Receipt;
  sent : nat;
  block : Z
}.

(** The hash of the [n]-th transaction: ["0xa"], ["0xfa"], ["0xffa"],
    ... *)
Fixpoint txDigits (n : nat) : string :=
  match n with
  | O => "a"
  | S m => String "f" (txDigits m)
  end.

Definition txHash (n : nat) : string := String "0" (String "x" (txDigits n)).

(** Modelled from the spec: the acceptance test of a transfer, the nonce
    one above the stored one and the balance not below the stored one. *)
Definition accepts (stored : BalanceProof) (balance nonce : Z) : bool :=
  (nonce =? bp_nonce stored + 1) && (bp_balance stored <=? balance).

(** Modelled from the spec: the same test for a rebalance proposal. *)
Definition acceptsRebalance (stored : RebalanceProof) (amount nonce : Z) : bool :=
  (nonce =? rp_nonce stored + 1) && (rp_amount stored <=? amount).

(** The ledger after one more transaction, whose receipt is [receipt]. *)
Definition file (receipt : Receipt) (l : t) : t := {|
  channels := channels l;
  networks := networks l;
  proofs := proofs l;
  rebalances := rebalances l;
  receipts := fun h => if String.eqb h (txHash (sent l)) then receipt else receipts l h;
  sent := S (sent l);
  block := block l
|}.

Definition storeProof (channelID to : string) (bp : BalanceProof) (l : t) : t := {|
  channels := channels l;
  networks := networks l;
  proofs := fun c a =>
    if String.eqb c channelID && String.eqb a to then bp else proofs l c a;
  rebalances := rebalances l;
  receipts := receipts l;
  sent := sent l;
  block := block l
|}.

Definition storeRebalance (channelID : string) (rp : RebalanceProof) (l : t) : t := {|
  channels := channels l;
  networks := networks l;
  proofs := proofs l;
  rebalances := fun c => if String.eqb c channelID then rp else rebalances l c;
  receipts := receipts l;
  sent := sent l;
  block := block l
|}.

(** Modelled from the spec: a submission gets a hash and a receipt; an
    accepted transfer replaces the stored balance proof of (channel,
    receiver), an accepted rebalance proposal the amount and the nonce of
    the stored rebalance proof of the channel (the fields that only
    [CloseChannel] reads stay as they are: the specification does not say
    how they come about). *)
Definition send (call : AppCall) (l : t) : SendResult * t :=
  let rs := {| rs_hash := Some (txHash (sent l)) |} in
  let accepted := {| errorMessage := None |} in
  let refused := {| errorMessage := Some "Reverted." |} in
  match call with
  | transfer to channelID balance nonce additionalHash signature =>
      if accepts (proofs l channelID to) balance nonce then
        (rs, storeProof channelID to
               {| bp_balance := balance; bp_nonce := nonce;
                  bp_additionalHash := additionalHash;
                  bp_partnerSignature := signature |}
               (file accepted l))
      else (rs, file refused l)
  | proposeRebalance channelID amount nonce signature =>
      let stored := rebalances l channelID in
      if acceptsRebalance stored amount nonce then
        (rs, storeRebalance channelID
               {| rp_amount := amount; rp_nonce := nonce;
                  rp_inAmount := rp_inAmount stored;
                  rp_inNonce := rp_inNonce stored;
                  rp_regulatorSignature := rp_regulatorSignature stored;
                  rp_inProviderSignature := rp_inProviderSignature stored |}
               (file accepted l))
      else (rs, file refused l)
  | _ => (rs, file accepted l)
  end.

(** Modelled from the spec: the answers of the ledger.  The channel of
    (user, token) is named by the two ("identity derived deterministically
    from (provider, user, token)"); the getters this model does not follow
    return zeros. *)
Definition respond (R : Type) (e : Eff R) (l : t) : Settled R * t :=
  match e in Eff R return Settled R * t with
  | EthGetChannelID user token =>
      (Fulfilled (String.append user (String.append "/" token)), l)
  | AppChannelMap channelID => (Fulfilled (channels l channelID), l)
  | AppPaymentNetworkMap token => (Fulfilled (networks l token), l)
  | AppRebalanceProofMap channelID => (Fulfilled (rebalances l channelID), l)
  | AppBalanceProofMap channelID address => (Fulfilled (proofs l channelID address), l)
  | AppFeeProofMap _ => (Fulfilled {| fp_amount := 0; fp_nonce := 0 |}, l)
  | AppFeeRateMap _ => (Fulfilled 0, l)
  | GetBlockNumber _ => (Fulfilled (block l), l)
  | EthGetTransactionCount _ => (Fulfilled 0, l)
  | EthNetGetId => (Fulfilled 1, l)
  | EthGetGasPrice => (Fulfilled 1, l)
  | EthSendSignedTransaction _ _ => (Fulfilled (OnTransactionHash "0x"), l)
  | AppSend call _ => let (rs, l1) := send call l in (Fulfilled rs, l1)
  | ListenToTransactionReceipt hash => (Fulfilled (receipts l hash), l)
  | GetPastEvents _ _ _ _ => (Fulfilled [], l)
  | CallbacksGet _ => (Fulfilled false, l)
  | Callback _ _ => (Fulfilled tt, l)
  | ReadEnabled => (Fulfilled true, l)
  | Sleep _ => (Fulfilled tt, l)
  | LoggerError _ => (Fulfilled tt, l)
  end.

(** The nonces of the transfers submitted in a trace, in order. *)
Fixpoint transferNonces (tr : list Action) : list Z :=
  match tr with
  | [] => []
  | Act e :: r =>
      match e with
      | AppSend (transfer _ _ _ nonce _ _) _ => nonce :: transferNonces r
      | _ => transferNonces r
      end
  end.

(** The nonces of the rebalance proposals submitted in a trace, in
    order. *)
Fixpoint rebalanceNonces (tr : list Action) : list Z :=
  match tr with
  | [] => []
  | Act e :: r =>
      match e with
      | AppSend (proposeRebalance _ _ nonce _) _ => nonce :: rebalanceNonces r
      | _ => rebalanceNonces r
      end
  end.

(** Nonces that go up by 1 from one proof to the next, the first one being
    [first]. *)
Fixpoint Consecutive (first : Z) (nonces : list Z) : Prop :=
  match nonces with
  | [] => True
  | n :: r => n = first /\ Consecutive (first + 1) r
  end.

(** A call of one of the two operations that sign a nonce, on the channel
    of a given user and token. *)
Inductive Call : Type :=
| CallSendAsset (amount : Z)
| CallProposeReBalance (amount : Z).

Definition amountOf (call : Call) : Z :=
  match call with
  | CallSendAsset amount => amount
  | CallProposeReBalance amount => amount
  end.

(** [await sdk.SendAsset(...)] or [await sdk.ProposeReBalance(...)], the
    result dropped. *)
Definition issue (env : Env) (user token : string) (call : Call) : Prog unit :=
  match call with
  | CallSendAsset amount => SDK.SendAsset env user amount token ;; Ret tt
  | CallProposeReBalance amount => SDK.ProposeReBalance env user amount token ;; Ret tt
  end.

(** The number of [SendAsset] calls in a list of calls. *)
Fixpoint sends (calls : list Call) : nat :=
  match calls with
  | [] => O
  | CallSendAsset _ :: r => S (sends r)
  | CallProposeReBalance _ :: r => sends r
  end.

(** The number of [ProposeReBalance] calls in a list of calls. *)
Fixpoint proposals (calls : list Call) : nat :=
  match calls with
  | [] => O
  | CallSendAsset _ :: r => proposals r
  | CallProposeReBalance _ :: r => S (proposals r)
  end.

(** A rebalance proposal whose amount, less the rebalance amount stored on
    the ledger, the provider balance covers: the guard of
    [ProposeReBalance] lets it pass. *)
Definition covered (l : t) (channelID token : string) (call : Call) : Prop :=
  match call with
  | CallSendAsset _ => True
  | CallProposeReBalance amount =>
      amount - rp_amount (rebalances l channelID) <= pn_providerBalance (networks l token)
  end.

End Ledger.

(** ** Sample data *)

Module Sample.

(** A configuration to run the operations on: status codes 1 (open) and
    2 (closing), and stand-ins for the hash and signature functions. *)
Definition env : Env := {|
  ADDRESS_ZERO := "0x0000000000000000000000000000000000000000";
  CHANNEL_STATUS_OPEN := 1;
  COMMIT_BLOCK_CONDITION := 12;
  ethPN_address := "0xE7";
  cpProvider_address := "0xC9";
  cpProvider_privateKey := "0x6a22";
  soliditySha3 := fun _ => "0x5a";
  signHash := fun _ => "0x51";
  ecsign := fun hash key => String.append hash key
|}.

Definition CHANNEL_STATUS_CLOSE : Z := 2.

Definition user : string := "0xa0".
Definition token : string := "0x9a".
Definition channel : string := "0xc1".

Definition paymentNetwork (onchain tracked : Z) : PaymentNetwork := {|
  pn_userCount := 1; pn_userTotalDeposit := 0; pn_userTotalWithdraw := 0;
  pn_providerDeposit := onchain; pn_providerWithdraw := 0;
  pn_providerBalance := tracked; pn_providerOnchainBalance := onchain
|}.

(** One channel, in the given status, with balance proof (100, 7),
    rebalance proof (30, 4), fee proof (0, 0), fee rate 50, on-chain
    provider total 40 and tracked provider balance 40; every submission
    is accepted. *)
Definition chain (status : Z) : Snapshot := {|
  s_channelID := fun _ _ => channel;
  s_channel := fun _ => {| ch_status := status; ch_token := token |};
  s_paymentNetwork := fun _ => paymentNetwork 40 40;
  s_rebalanceProof := fun _ =>
    {| rp_amount := 30; rp_nonce := 4; rp_inAmount := "30"; rp_inNonce := "4";
       rp_regulatorSignature := "0x00"; rp_inProviderSignature := "0x00" |};
  s_balanceProof := fun _ _ =>
    {| bp_balance := 100; bp_nonce := 7; bp_additionalHash := ZERO_HASH;
       bp_partnerSignature := "0x00" |};
  s_feeProof := fun _ => {| fp_amount := 0; fp_nonce := 0 |};
  s_feeRate := fun _ => 50;
  s_blockNumber := fun _ => 1000;
  s_transactionCount := fun _ => 3;
  s_ethSend := fun _ => OnTransactionHash "0xd0";
  s_appSend := fun _ => {| rs_hash := Some "0xf0" |};
  s_receipt := fun _ => {| errorMessage := None |};
  s_pastEvents := fun _ _ _ => [];
  s_callbacks := fun _ => false;
  s_enabled := true
|}.

(** The same view with every primary-chain broadcast reporting an
    error. *)
Definition withEthError (s : Snapshot) : Snapshot := {|
  s_channelID := s_channelID s;
  s_channel := s_channel s;
  s_paymentNetwork := s_paymentNetwork s;
  s_rebalanceProof := s_rebalanceProof s;
  s_balanceProof := s_balanceProof s;
  s_feeProof := s_feeProof s;
  s_feeRate := s_feeRate s;
  s_blockNumber := s_blockNumber s;
  s_transactionCount := s_transactionCount s;
  s_ethSend := fun _ => OnError "Returned error: insufficient funds";
  s_appSend := s_appSend s;
  s_receipt := s_receipt s;
  s_pastEvents := s_pastEvents s;
  s_callbacks := s_callbacks s;
  s_enabled := s_enabled s
|}.

(** The same view with the given logs on the two contracts. *)
Definition withPastEvents (events : ContractRef -> list Event) (s : Snapshot)
  : Snapshot := {|
  s_channelID := s_channelID s;
  s_channel := s_channel s;
  s_paymentNetwork := s_paymentNetwork s;
  s_rebalanceProof := s_rebalanceProof s;
  s_balanceProof := s_balanceProof s;
  s_feeProof := s_feeProof s;
  s_feeRate := s_feeRate s;
  s_blockNumber := s_blockNumber s;
  s_transactionCount := s_transactionCount s;
  s_ethSend := s_ethSend s;
  s_appSend := s_appSend s;
  s_receipt := s_receipt s;
  s_pastEvents := fun contract _ _ => events contract;
  s_callbacks := s_callbacks s;
  s_enabled := s_enabled s
|}.

(** A [Transfer] log of the sample channel, towards the provider. *)
Definition transferEvent (hash nonce balance : string) : Event := {|
  ev_event := "Transfer";
  ev_transactionHash := hash;
  ev_returnValues :=
    [("from", user); ("to", cpProvider_address env); ("channelID", channel);
     ("balance", balance); ("nonce", nonce); ("additionalHash", ZERO_HASH)]
|}.

(** A ledger on which every channel is open with balance proof
    (100, 7) and rebalance proof (30, 4), the provider balance being 40. *)
Definition ledger : Ledger.t := {|
  Ledger.channels := fun _ => {| ch_status := 1; ch_token := token |};
  Ledger.networks := fun _ => paymentNetwork 40 40;
  Ledger.proofs := fun _ _ =>
    {| bp_balance := 100; bp_nonce := 7; bp_additionalHash := ZERO_HASH;
       bp_partnerSignature := "0x00" |};
  Ledger.rebalances := fun _ =>
    {| rp_amount := 30; rp_nonce := 4; rp_inAmount := "30"; rp_inNonce := "4";
       rp_regulatorSignature := "0x00"; rp_inProviderSignature := "0x00" |};
  Ledger.receipts := fun _ => {| errorMessage := None |};
  Ledger.sent := 0;
  Ledger.block := 1000
|}.

(** A handler that fails on the log with hash ["0xbad"] and otherwise
    reports the log to the [Transfer] callback. *)
Definition failingOnBad (event : Event) : Prog unit :=
  if String.eqb (ev_transactionHash event) "0xbad"
  then Throw "handler failed"
  else await (Callback "Transfer"
                (OTHER_EVENT [("txhash", ev_transactionHash event)])).

Definition watchItem (contract : ContractRef) : HttpWatcher.WatchItem := {|
  HttpWatcher.contract := contract;
  HttpWatcher.listener :=
    [("Transfer", {| HttpWatcher.filter := [("to", cpProvider_address env)];
                     HttpWatcher.handler := failingOnBad |})]
|}.

(** A watcher of the application chain with two watch items. *)
Definition watcher : HttpWatcher.t := {|
  HttpWatcher.base := Cita;
  HttpWatcher.provider := "http://127.0.0.1:1337";
  HttpWatcher.blockInterval := 3000;
  HttpWatcher.watchList := [watchItem AppPN; watchItem EthPN]
|}.

(** The application-chain contract logged a transfer whose handling fails
    and then one whose handling succeeds; the other contract logged one
    transfer. *)
Definition logs (contract : ContractRef) : list Event :=
  match contract with
  | AppPN => [transferEvent "0xbad" "1" "10"; transferEvent "0x900d" "2" "20"]
  | EthPN => [transferEvent "0x0e" "1" "10"]
  end.

(** A log of an event that its contract declares under the name
    [toString]. *)
Definition toStringEvent : Event := {|
  ev_event := "toString";
  ev_transactionHash := "0x70";
  ev_returnValues := [("value", "1")]
|}.

(** A contract logged a transfer, then a [toString] event, then another
    transfer. *)
Definition logsWithToString (contract : ContractRef) : list Event :=
  [transferEvent "0x0e" "1" "10"; toStringEvent; transferEvent "0x900d" "2" "20"].

(** The same view with the watcher disabled. *)
Definition disabled (s : Snapshot) : Snapshot := {|
  s_channelID := s_channelID s;
  s_channel := s_channel s;
  s_paymentNetwork := s_paymentNetwork s;
  s_rebalanceProof := s_rebalanceProof s;
  s_balanceProof := s_balanceProof s;
  s_feeProof := s_feeProof s;
  s_feeRate := s_feeRate s;
  s_blockNumber := s_blockNumber s;
  s_transactionCount := s_transactionCount s;
  s_ethSend := s_ethSend s;
  s_appSend := s_appSend s;
  s_receipt := s_receipt s;
  s_pastEvents := s_pastEvents s;
  s_callbacks := s_callbacks s;
  s_enabled := false
|}.

(** The same view with every pair of user and token resolved to the given
    channel id. *)
Definition withChannelID (channelID : string) (s : Snapshot) : Snapshot := {|
  s_channelID := fun _ _ => channelID;
  s_channel := s_channel s;
  s_paymentNetwork := s_paymentNetwork s;
  s_rebalanceProof := s_rebalanceProof s;
  s_balanceProof := s_balanceProof s;
  s_feeProof := s_feeProof s;
  s_feeRate := s_feeRate s;
  s_blockNumber := s_blockNumber s;
  s_transactionCount := s_transactionCount s;
  s_ethSend := s_ethSend s;
  s_appSend := s_appSend s;
  s_receipt := s_receipt s;
  s_pastEvents := s_pastEvents s;
  s_callbacks := s_callbacks s;
  s_enabled := s_enabled s
|}.

(** The same view with the [Transfer] callback registered. *)
Definition withCallback (s : Snapshot) : Snapshot := {|
  s_channelID := s_channelID s;
  s_channel := s_channel s;
  s_paymentNetwork := s_paymentNetwork s;
  s_rebalanceProof := s_rebalanceProof s;
  s_balanceProof := s_balanceProof s;
  s_feeProof := s_feeProof s;
  s_feeRate := s_feeRate s;
  s_blockNumber := s_blockNumber s;
  s_transactionCount := s_transactionCount s;
  s_ethSend := s_ethSend s;
  s_appSend := s_appSend s;
  s_receipt := s_receipt s;
  s_pastEvents := s_pastEvents s;
  s_callbacks := fun event => String.eqb event "Transfer";
  s_enabled := s_enabled s
|}.

(** The sample chain with the [Transfer] callback registered and
    throwing. *)
Definition throwingCallback : Oracle :=
  fun R e =>
    match e in Eff R0 return Settled R0 -> Settled R0 with
    | Callback _ _ => fun _ => Rejected "callback failed"
    | _ => fun answer => answer
    end (oracleOf (withCallback (chain 1)) R e).

(** The sample configuration with the private key written without
    prefix. *)
Definition plainKeyEnv : Env := {|
  ADDRESS_ZERO := ADDRESS_ZERO env;
  CHANNEL_STATUS_OPEN := CHANNEL_STATUS_OPEN env;
  COMMIT_BLOCK_CONDITION := COMMIT_BLOCK_CONDITION env;
  ethPN_address := ethPN_address env;
  cpProvider_address := cpProvider_address env;
  cpProvider_privateKey := "6a22";
  soliditySha3 := soliditySha3 env;
  signHash := signHash env;
  ecsign := ecsign env
|}.

(** A watcher without watch items. *)
Definition idleWatcher : HttpWatcher.t := {|
  HttpWatcher.base := Cita;
  HttpWatcher.provider := "http://127.0.0.1:1337";
  HttpWatcher.blockInterval := 3000;
  HttpWatcher.watchList := []
|}.

End Sample.

(* ================================================================== *)
(** * The statements of the specification that the code is compared with *)
(* ================================================================== *)

Module Spec.

(** "sorts incoming and outgoing Transfer events by ascending nonce":
    the comparator on the nonce logged with each event. *)
Definition byNonce (a b : Event) : Js.Num :=
  let nonceOf e :=
    match Js.lookup "nonce" (ev_returnValues e) with
    | Some s => Js.Str s
    | None => Js.Undefined
    end in
  Js.numSub (Js.toNumber (nonceOf a)) (Js.toNumber (nonceOf b)).

(** The history with both lists in ascending order of nonce, amounts
    taken against one running balance that starts at 0 and runs on from
    the incoming list into the outgoing one. *)
Definition allTXs (inTXs outTXs : list Event)
  : option (list SDK.TX * list SDK.TX) :=
  match SDK.mapTX 0 (Js.sort byNonce inTXs) with
  | Some (ins, lastBalance) =>
      match SDK.mapTX lastBalance (Js.sort byNonce outTXs) with
      | Some (outs, _) => Some (ins, outs)
      | None => None
      end
  | None => None
  end.

End Spec.


(* ================================================================== *)
(** * Running a program on a fixed oracle *)
(* ================================================================== *)

Lemma runOn_Ret {A : Type} (o : Oracle) (a : A) :
  runOn o (Ret a) = (Returned a, []).
Proof. reflexivity. Qed.

Lemma runOn_Throw {A : Type} (o : Oracle) (err : string) :
  runOn o (@Throw A err) = (Thrown err, []).
Proof. reflexivity. Qed.

Lemma runOn_Hang {A : Type} (o : Oracle) :
  runOn o (@Hang A) = (Pending, []).
Proof. reflexivity. Qed.

Lemma runOn_Vis {A R : Type} (o : Oracle) (e : Eff R) (k : Settled R -> Prog A) :
  runOn o (Vis e k) =
  (outcome (runOn o (k (o R e))), Act e :: trace (runOn o (k (o R e)))).
Proof.
  unfold runOn, outcome, trace. cbn.
  destruct (run _ (k (o R e)) tt) as [[out tr] w]. reflexivity.
Qed.

Lemma runOn_Fork {A : Type} (o : Oracle) (c : Prog unit) (k : Prog A) :
  runOn o (Fork c k) =
  (outcome (runOn o k), trace (runOn o c) ++ trace (runOn o k)).
Proof.
  unfold runOn, outcome, trace. cbn.
  destruct (run _ c tt) as [[out1 tr1] []].
  destruct (run _ k tt) as [[out2 tr2] w2]. reflexivity.
Qed.

Lemma runOn_bind {A B : Type} (o : Oracle) (p : Prog A) (f : A -> Prog B) :
  runOn o (bind p f) = andThen o (runOn o p) f.
Proof.
  revert B f.
  induction p as [A a | A err | A | A R e k IH | A c IHc k IHk]; intros B f.
  - cbn [bind]. rewrite runOn_Ret. cbn. destruct (runOn o (f a)); reflexivity.
  - reflexivity.
  - reflexivity.
  - cbn [bind]. rewrite !runOn_Vis, IH.
    destruct (runOn o (k (o R e))) as [[a | err |] tr]; reflexivity.
  - cbn [bind]. rewrite !runOn_Fork, IHk.
    destruct (runOn o k) as [[a | err |] tr]; cbn; rewrite ?app_assoc; reflexivity.
Qed.

Lemma runOn_await {R : Type} (o : Oracle) (e : Eff R) (r : R) :
  o R e = Fulfilled r -> runOn o (await e) = (Returned r, [Act e]).
Proof. intros H. unfold await. rewrite runOn_Vis, H. reflexivity. Qed.

(** The same for an environment with a state. *)
Section RunLemmas.
Context {W : Type}.
Variable respond : forall R : Type, Eff R -> W -> Settled R * W.

Lemma run_bind {A B : Type} (p : Prog A) (f : A -> Prog B) (w : W) :
  run respond (bind p f) w =
  match run respond p w with
  | (Returned a, tr, w1) =>
      let '(o, tr2, w2) := run respond (f a) w1 in (o, tr ++ tr2, w2)
  | (Thrown err, tr, w1) => (Thrown err, tr, w1)
  | (Pending, tr, w1) => (Pending, tr, w1)
  end.
Proof.
  revert B f w.
  induction p as [A a | A err | A | A R e k IH | A c IHc k IHk]; intros B f w.
  - cbn. destruct (run respond (f a) w) as [[o tr] w2]. reflexivity.
  - reflexivity.
  - reflexivity.
  - cbn. destruct (respond R e w) as [s w1]. rewrite IH.
    destruct (run respond (k s) w1) as [[[a | err |] tr] w2]; [| reflexivity..].
    destruct (run respond (f a) w2) as [[o tr2] w3]. reflexivity.
  - cbn. destruct (run respond c w) as [[oc trc] w1]. rewrite IHk.
    destruct (run respond k w1) as [[[a | err |] tr] w2]; [| reflexivity..].
    destruct (run respond (f a) w2) as [[o tr2] w3]. now rewrite app_assoc.
Qed.
End RunLemmas.

(** Asking [e], answered by [H], then going on. *)
Ltac ask H := rewrite runOn_Vis, H; cbn [bind].

(** ** Numbers *)

Lemma toDouble_exact (z : Z) : Z.abs z < 2 ^ 53 -> Js.toDouble z = z.
Proof.
  intros H. unfold Js.toDouble.
  destruct (Z.eq_dec (Z.abs z) 0) as [E | E].
  - rewrite E. reflexivity.
  - assert (Z.log2 (Z.abs z) < 53) by (apply Z.log2_lt_pow2; lia).
    destruct (Z.leb_spec (Z.log2 (Z.abs z) - 52) 0); [reflexivity | lia].
Qed.


(** Doubles keep 53 bits: 2^53 + 1 is not representable, and adding 1 to
    2^53 gives 2^53 again. *)
Example toDouble_rounds :
  Js.toDouble (2 ^ 53 + 1) = 2 ^ 53 /\
  Js.toDouble (2 ^ 53 + 3) = 2 ^ 53 + 4 /\
  Js.addDouble (Js.toDouble (2 ^ 53)) 1 = 2 ^ 53 /\
  Js.toDouble 9007199254740991 = 9007199254740991.
Proof. repeat split; reflexivity. Qed.

(** [BN.div] truncates: -2500 / 10000 is 0, where the floor is -1. *)
Example quot_truncates : Z.quot (-2500) 10000 = 0 /\ (-2500) / 10000 = -1.
Proof. split; reflexivity. Qed.

Example toBN_samples :
  Js.toBN "200" = Some 200 /\ Js.toBN "0x10" = Some 16 /\ Js.toBN "12g" = None.
Proof. repeat split; reflexivity. Qed.

Example strip0x_samples :
  Js.strip0x "0x6a22" = "6a22" /\ Js.strip0x "6a22" = "6a22".
Proof. split; reflexivity. Qed.

(** ** Requests shared by the operations *)

Lemma BuildAppChainTX_run (env : Env) (o : Oracle) (block : Z) :
  o _ (GetBlockNumber Cita) = Fulfilled block ->
  runOn o (Common.BuildAppChainTX env) =
  (Returned {| atx_privateKey := cpProvider_privateKey env;
               atx_from := cpProvider_address env;
               atx_validUntilBlock := block + 88 |},
   [Act (GetBlockNumber Cita)]).
Proof.
  intros H. unfold Common.BuildAppChainTX, Common.GetLastCommitBlock.
  cbn [String.eqb Ascii.eqb Bool.eqb bind await]. ask H. reflexivity.
Qed.

Lemma confirm_submits_nothing (o : Oracle) (rs : SendResult) :
  submissions (trace (runOn o (SDK.confirm rs))) = [].
Proof.
  unfold SDK.confirm. destruct (rs_hash rs) as [hash |]; [| reflexivity].
  destruct (String.eqb hash ""); [reflexivity |].
  cbn [bind await]. rewrite runOn_Vis.
  destruct (o _ (ListenToTransactionReceipt hash)) as [receipt | err]; [| reflexivity].
  cbn [bind]. destruct (negb _); reflexivity.
Qed.

(** The status test of the three operations, on a status within the exact
    range of a double. *)
Lemma status_test (env : Env) (channel : Channel) :
  Z.abs (ch_status channel) < 2 ^ 53 ->
  negb (Js.toDouble (ch_status channel) =? CHANNEL_STATUS_OPEN env) =
  negb (ch_status channel =? CHANNEL_STATUS_OPEN env).
Proof. intros H. now rewrite toDouble_exact. Qed.

(* ================================================================== *)
(** * The operations of the SDK *)
(* ================================================================== *)

(** C1, as stated, fails: [SendAsset] on a channel whose status is the
    closing code does not return a value to its caller; the call ends with
    the exception "channel status is not open". *)
Lemma SendAsset_closing_does_not_return :
  let call := runOn (oracleOf (Sample.chain Sample.CHANNEL_STATUS_CLOSE))
                (SDK.SendAsset Sample.env Sample.user 5 Sample.token) in
  outcome call = Thrown "channel status is not open" /\
  ~ (exists r : OpResult, outcome call = Returned r).
Proof.
  cbn zeta. split; [reflexivity |]. intros [r H]. discriminate H.
Qed.

(** C1 (amended): when the status of the resolved channel is not the open
    code, [ProposeReBalance], [SendAsset] and [CloseChannel] end by throwing
    "channel status is not open"; they have made the two reads that resolve
    the channel and nothing else, so no transaction is submitted. *)
Theorem not_open_throws (env : Env) (o : Oracle) (user token channelID : string)
    (amount : Z) (channel : Channel) :
  o _ (EthGetChannelID user token) = Fulfilled channelID ->
  o _ (AppChannelMap channelID) = Fulfilled channel ->
  Z.abs (ch_status channel) < 2 ^ 53 ->
  ch_status channel <> CHANNEL_STATUS_OPEN env ->
  let reads := [Act (EthGetChannelID user token); Act (AppChannelMap channelID)] in
  runOn o (SDK.ProposeReBalance env user amount token) =
    (Thrown "channel status is not open", reads) /\
  runOn o (SDK.SendAsset env user amount token) =
    (Thrown "channel status is not open", reads) /\
  runOn o (SDK.CloseChannel env user token) =
    (Thrown "channel status is not open", reads) /\
  submissions reads = [].
Proof.
  intros Hid Hch Hb Hs reads.
  assert (Hne : negb (Js.toDouble (ch_status channel) =? CHANNEL_STATUS_OPEN env) = true).
  { rewrite status_test by assumption. apply negb_true_iff, Z.eqb_neq, Hs. }
  repeat split.
  - unfold SDK.ProposeReBalance. cbn [bind await]. ask Hid. ask Hch. rewrite Hne. reflexivity.
  - unfold SDK.SendAsset. cbn [bind await]. ask Hid. ask Hch. rewrite Hne. reflexivity.
  - unfold SDK.CloseChannel. cbn [bind await]. ask Hid. ask Hch. rewrite Hne. reflexivity.
Qed.

Lemma not_open_throws_witness :
  let o := oracleOf (Sample.chain Sample.CHANNEL_STATUS_CLOSE) in
  let reads := [Act (EthGetChannelID Sample.user Sample.token);
                Act (AppChannelMap Sample.channel)] in
  runOn o (SDK.ProposeReBalance Sample.env Sample.user 5 Sample.token) =
    (Thrown "channel status is not open", reads) /\
  runOn o (SDK.SendAsset Sample.env Sample.user 5 Sample.token) =
    (Thrown "channel status is not open", reads) /\
  runOn o (SDK.CloseChannel Sample.env Sample.user Sample.token) =
    (Thrown "channel status is not open", reads) /\
  submissions reads = [].
Proof.
  apply (not_open_throws Sample.env (oracleOf (Sample.chain Sample.CHANNEL_STATUS_CLOSE))
           Sample.user Sample.token Sample.channel 5
           {| ch_status := Sample.CHANNEL_STATUS_CLOSE; ch_token := Sample.token |}).
  - reflexivity.
  - reflexivity.
  - reflexivity.
  - discriminate.
Defined.

(** C2: [ProposeWithdraw] returns [false], having made one read and no
    submission, whenever the amount exceeds the on-chain provider total or
    the on-chain total less the amount exceeds the tracked provider
    balance. *)
Theorem ProposeWithdraw_rejects (env : Env) (o : Oracle) (amount : Z) (token : string)
    (pn : PaymentNetwork) :
  o _ (AppPaymentNetworkMap token) = Fulfilled pn ->
  pn_providerOnchainBalance pn < amount \/
  pn_providerBalance pn < pn_providerOnchainBalance pn - amount ->
  runOn o (SDK.ProposeWithdraw env amount token) =
    (Returned RFalse, [Act (AppPaymentNetworkMap token)]) /\
  submissions (trace (runOn o (SDK.ProposeWithdraw env amount token))) = [].
Proof.
  intros Hpn Hcond.
  assert (E : runOn o (SDK.ProposeWithdraw env amount token) =
              (Returned RFalse, [Act (AppPaymentNetworkMap token)])).
  { unfold SDK.ProposeWithdraw. cbn [bind await]. ask Hpn.
    destruct (Z.ltb_spec (pn_providerOnchainBalance pn) amount); [reflexivity |].
    destruct (Z.ltb_spec (pn_providerBalance pn) (pn_providerOnchainBalance pn - amount));
      [reflexivity | lia]. }
  rewrite E. split; reflexivity.
Qed.

(** The scenario of the specification: amount 50 against an on-chain total
    of 40. *)
Lemma ProposeWithdraw_rejects_witness :
  let o := oracleOf (Sample.chain 1) in
  runOn o (SDK.ProposeWithdraw Sample.env 50 Sample.token) =
    (Returned RFalse, [Act (AppPaymentNetworkMap Sample.token)]) /\
  submissions (trace (runOn o (SDK.ProposeWithdraw Sample.env 50 Sample.token))) = [].
Proof.
  apply (ProposeWithdraw_rejects Sample.env (oracleOf (Sample.chain 1)) 50 Sample.token
           (Sample.paymentNetwork 40 40)).
  - reflexivity.
  - left. cbn. lia.
Defined.






(* ================================================================== *)
(** * The handler of inbound transfers *)
(* ================================================================== *)



(* ================================================================== *)
(** * The poller *)
(* ================================================================== *)

Lemma firstScan_app (tr1 tr2 : list Action) (range : Z * Z) :
  HttpWatcher.firstScan tr1 = Some range ->
  HttpWatcher.firstScan (tr1 ++ tr2) = Some range.
Proof.
  induction tr1 as [| [R e] tr1 IH]; cbn; [discriminate |].
  destruct e; auto.
Qed.

Lemma processAllEvent_first_scan (o : Oracle) (a b : Z) (item : HttpWatcher.WatchItem) :
  HttpWatcher.firstScan (trace (runOn o (HttpWatcher.processAllEvent a b item))) =
  Some (a, b).
Proof.
  unfold HttpWatcher.processAllEvent. cbn [bind await]. rewrite runOn_Vis. reflexivity.
Qed.

Lemma start_first_scan (w : HttpWatcher.t) (o : Oracle) (head lastBlockNumber : Z)
    (item : HttpWatcher.WatchItem) (rest : list HttpWatcher.WatchItem)
    (rounds ticks : nat) :
  HttpWatcher.watchList w = item :: rest ->
  o _ (GetBlockNumber (HttpWatcher.base w)) = Fulfilled head ->
  HttpWatcher.startBlock lastBlockNumber head <= head ->
  HttpWatcher.firstScan
    (trace (runOn o (HttpWatcher.start w (S rounds) ticks lastBlockNumber))) =
  Some (HttpWatcher.startBlock lastBlockNumber head, head).
Proof.
  intros Hwl Hhead Hle. unfold HttpWatcher.start. cbn [bind await]. ask Hhead.
  cbn [HttpWatcher.syncing].
  destruct (Z.leb_spec (HttpWatcher.startBlock lastBlockNumber head) head); [| lia].
  rewrite Hwl. cbn [HttpWatcher.scan bind]. rewrite runOn_Fork.
  cbn [trace outcome fst snd HttpWatcher.firstScan].
  apply firstScan_app, processAllEvent_first_scan.
Qed.

(** C8, as stated, fails: no watcher, whatever its constructor arguments,
    starts its first scan elsewhere than 10 blocks behind the head when it
    is started without a block number; the margin is not a parameter. *)
Lemma start_margin_is_not_configurable :
  ~ (exists (w : HttpWatcher.t) (o : Oracle) (head : Z) (rounds ticks : nat),
        HttpWatcher.watchList w <> [] /\
        o _ (GetBlockNumber (HttpWatcher.base w)) = Fulfilled head /\
        HttpWatcher.firstScan
          (trace (runOn o (HttpWatcher.start w (S rounds) ticks 0))) <>
        Some (head - 10, head)).
Proof.
  intros (w & o & head & rounds & ticks & Hwl & Hhead & Hne).
  destruct (HttpWatcher.watchList w) as [| item rest] eqn:E; [now apply Hwl |].
  apply Hne.
  rewrite (start_first_scan w o head 0 item rest rounds ticks E Hhead);
    cbn; [reflexivity | lia].
Qed.

(** C8 (amended): started without a block number (that is, with 0), a
    watcher with something to watch scans first the range from the current
    head minus 10 to the current head; the margin 10 is a constant of
    [start] and no field of the watcher enters it. *)
Theorem start_scans_from_head_minus_10 (w : HttpWatcher.t) (o : Oracle) (head : Z)
    (item : HttpWatcher.WatchItem) (rest : list HttpWatcher.WatchItem)
    (rounds ticks : nat) :
  HttpWatcher.watchList w = item :: rest ->
  o _ (GetBlockNumber (HttpWatcher.base w)) = Fulfilled head ->
  HttpWatcher.firstScan
    (trace (runOn o (HttpWatcher.start w (S rounds) ticks 0))) =
  Some (head - 10, head).
Proof.
  intros Hwl Hhead.
  rewrite (start_first_scan w o head 0 item rest rounds ticks Hwl Hhead);
    cbn; [reflexivity | lia].
Qed.

Lemma start_scans_from_head_minus_10_witness :
  HttpWatcher.firstScan
    (trace (runOn (oracleOf (Sample.chain 1))
              (HttpWatcher.start Sample.watcher 1 0 0))) =
  Some (1000 - 10, 1000).
Proof.
  apply (start_scans_from_head_minus_10 Sample.watcher (oracleOf (Sample.chain 1)) 1000
           (Sample.watchItem AppPN) [Sample.watchItem EthPN] 0 0);
    reflexivity.
Defined.

(** X11: with a block number given that is neither 0 nor beyond the head,
    the first scan starts at that very block. *)
Lemma start_scans_from_given_block (w : HttpWatcher.t) (o : Oracle)
    (head lastBlockNumber : Z)
    (item : HttpWatcher.WatchItem) (rest : list HttpWatcher.WatchItem)
    (rounds ticks : nat) :
  HttpWatcher.watchList w = item :: rest ->
  o _ (GetBlockNumber (HttpWatcher.base w)) = Fulfilled head ->
  lastBlockNumber <> 0 ->
  lastBlockNumber <= head ->
  HttpWatcher.firstScan
    (trace (runOn o (HttpWatcher.start w (S rounds) ticks lastBlockNumber))) =
  Some (lastBlockNumber, head).
Proof.
  intros Hwl Hhead Hnz Hle.
  assert (E : HttpWatcher.startBlock lastBlockNumber head = lastBlockNumber).
  { unfold HttpWatcher.startBlock. destruct (Z.eqb_spec lastBlockNumber 0); [contradiction | reflexivity]. }
  rewrite (start_first_scan w o head lastBlockNumber item rest rounds ticks Hwl Hhead);
    rewrite E; [reflexivity | exact Hle].
Qed.

(** ** Failing handlers *)

(** X12: [processEvent] calls the handler of every log it fetched and
    returns, however the handlers end. *)
Lemma processEvent_dispatches_all (o : Oracle) (a b : Z) (contract : ContractRef)
    (eventName : string) (setting : HttpWatcher.EventSetting) (events : list Event) :
  o _ (GetPastEvents contract eventName (HttpWatcher.filter setting) (Some (a, b))) =
    Fulfilled events ->
  runOn o (HttpWatcher.processEvent a b contract eventName setting) =
  (Returned tt,
   Act (GetPastEvents contract eventName (HttpWatcher.filter setting) (Some (a, b)))
   :: flat_map (fun event => trace (runOn o (HttpWatcher.handler setting event))) events).
Proof.
  intros H. unfold HttpWatcher.processEvent. cbn [bind await]. ask H.
  assert (E : forall l,
             runOn o (forEach l (fun event => Fork (HttpWatcher.handler setting event) (Ret tt))) =
             (Returned tt,
              flat_map (fun event => trace (runOn o (HttpWatcher.handler setting event))) l)).
  { induction l as [| x l IH]; [reflexivity |].
    cbn [forEach bind flat_map]. rewrite runOn_Fork, IH. reflexivity. }
  rewrite E. reflexivity.
Qed.

(** C7 fails on the code at this input.  The application-chain contract
    logged two transfers to the provider; the handler fails on the first.
    [processAllEvent], which [start] uses, ends with that failure after the
    query alone: the handler of the second log is never called and nothing
    is logged.  [start] itself goes on to the next watch item and into its
    second loop. *)
Theorem processAllEvent_aborts_on_failing_handler :
  let o := oracleOf (Sample.withPastEvents Sample.logs (Sample.chain 1)) in
  runOn o (HttpWatcher.processAllEvent 990 1000 (Sample.watchItem AppPN)) =
    (Thrown "handler failed",
     [Act (GetPastEvents AppPN "allEvents" [] (Some (990, 1000)))]) /\
  runOn o (HttpWatcher.start Sample.watcher 2 1 0) =
    (Returned (HttpWatcher.Watching 1000),
     [Act (GetBlockNumber Cita);
      Act (GetPastEvents AppPN "allEvents" [] (Some (990, 1000)));
      Act ReadEnabled;
      Act (GetPastEvents EthPN "allEvents" [] (Some (990, 1000)));
      Act (Callback "Transfer" (OTHER_EVENT [("txhash", "0x0e")]));
      Act ReadEnabled; Act (GetBlockNumber Cita);
      Act (Sleep 3000); Act (GetBlockNumber Cita)]).
Proof. cbn zeta. split; reflexivity. Qed.

(** On the same logs [processEvent], whose handler call stands inside a
    [try], reaches the second log. *)
Example processEvent_reaches_second_log :
  runOn (oracleOf (Sample.withPastEvents Sample.logs (Sample.chain 1)))
        (HttpWatcher.processEvent 990 1000 AppPN "Transfer"
           {| HttpWatcher.filter := [("to", cpProvider_address Sample.env)];
              HttpWatcher.handler := Sample.failingOnBad |}) =
  (Returned tt,
   [Act (GetPastEvents AppPN "Transfer" [("to", "0xC9")] (Some (990, 1000)));
    Act (Callback "Transfer" (OTHER_EVENT [("txhash", "0x900d")]))]).
Proof. reflexivity. Qed.

(* ================================================================== *)
(** * Deposits *)
(* ================================================================== *)

Lemma SendEthTransaction_run (env : Env) (o : Oracle) (from to : string) (value : Z)
    (data : EthCallData) (count chainId gasPrice : Z) :
  o _ (EthGetTransactionCount from) = Fulfilled count ->
  o _ EthNetGetId = Fulfilled chainId ->
  o _ EthGetGasPrice = Fulfilled gasPrice ->
  let send :=
    EthSendSignedTransaction
      {| tx_from := from; tx_nonce := count; tx_chainId := chainId; tx_to := to;
         tx_data := data; tx_value := value; tx_gasPrice := gasPrice;
         tx_gasLimit := 300000 |}
      (Js.strip0x (cpProvider_privateKey env)) in
  runOn o (Common.SendEthTransaction env from to value data) =
  (settles (o _ send),
   [Act (EthGetTransactionCount from); Act EthNetGetId; Act EthGetGasPrice; Act send]).
Proof.
  intros Hc Hi Hg. cbn zeta. unfold Common.SendEthTransaction. cbn [bind await].
  ask Hc. ask Hi. ask Hg. rewrite runOn_Vis. unfold settles.
  destruct (o _ (EthSendSignedTransaction _ _)) as [[hash | error] | err]; reflexivity.
Qed.

(** C9, as stated, fails: when the broadcast of the deposit reports an
    error, [Deposit] neither returns a hash nor fails; its promise never
    settles. *)
Lemma Deposit_hangs_on_broadcast_error :
  let call := runOn (oracleOf (Sample.withEthError (Sample.chain 1)))
                (SDK.Deposit Sample.env 5 (ADDRESS_ZERO Sample.env)) in
  outcome call = Pending /\
  ~ (exists hash, outcome call = Returned hash) /\
  ~ (exists err, outcome call = Thrown err).
Proof.
  cbn zeta. split; [reflexivity |].
  split; intros [x H]; discriminate H.
Qed.

(** C9 (amended): with the zero token [Deposit] submits one transaction, to
    the payment contract, carrying the amount as value and the
    [providerDeposit] call.  With another token it submits first a
    zero-value transaction carrying [approve(contract, amount)] and, if the
    broadcast of that yields a hash, the [providerDeposit] call with value
    0 to the payment contract.  It returns the hash of the deposit
    transaction when its broadcast yields one; when a broadcast reports an
    error instead, the call never settles, and after a failed approval the
    deposit is not submitted. *)
Theorem Deposit_submissions (env : Env) (o : Oracle) (amount : Z) (token : string)
    (count chainId gasPrice : Z) :
  o _ (EthGetTransactionCount (cpProvider_address env)) = Fulfilled count ->
  o _ EthNetGetId = Fulfilled chainId ->
  o _ EthGetGasPrice = Fulfilled gasPrice ->
  let call := runOn o (SDK.Deposit env amount token) in
  let key := Js.strip0x (cpProvider_privateKey env) in
  let deposit value :=
    EthSendSignedTransaction
      {| tx_from := cpProvider_address env; tx_nonce := count; tx_chainId := chainId;
         tx_to := ethPN_address env; tx_data := providerDeposit token amount;
         tx_value := value; tx_gasPrice := gasPrice; tx_gasLimit := 300000 |} key in
  (token = ADDRESS_ZERO env ->
   submissions (trace call) = [Act (deposit amount)] /\
   outcome call = settles (o _ (deposit amount))) /\
  (token <> ADDRESS_ZERO env ->
   exists approval : RawTx,
     tx_data approval = approve (ethPN_address env) amount /\
     tx_value approval = 0 /\
     tx_from approval = cpProvider_address env /\
     match o _ (EthSendSignedTransaction approval key) with
     | Fulfilled (OnTransactionHash _) =>
         submissions (trace call) =
           [Act (EthSendSignedTransaction approval key); Act (deposit 0)] /\
         outcome call = settles (o _ (deposit 0))
     | _ =>
         submissions (trace call) = [Act (EthSendSignedTransaction approval key)] /\
         outcome call = Pending
     end).
Proof.
  intros Hc Hi Hg. cbn zeta. split.
  - intros ->. unfold SDK.Deposit. rewrite String.eqb_refl. cbn [negb].
    rewrite runOn_bind.
    rewrite (SendEthTransaction_run env o _ _ _ _ count chainId gasPrice Hc Hi Hg).
    unfold settles.
    destruct (o _ (EthSendSignedTransaction _ _)) as [[hash | error] | err];
      split; reflexivity.
  - intros Hne. unfold SDK.Deposit.
    destruct (String.eqb_spec token (ADDRESS_ZERO env)) as [E | _]; [contradiction |].
    cbn [negb].
    eexists {| tx_from := cpProvider_address env; tx_nonce := count;
               tx_chainId := chainId; tx_to := ethPN_address env;
               tx_data := approve (ethPN_address env) amount; tx_value := 0;
               tx_gasPrice := gasPrice; tx_gasLimit := 300000 |}.
    cbn [tx_data tx_value tx_from]. repeat (split; [reflexivity |]).
    rewrite runOn_bind.
    rewrite (SendEthTransaction_run env o _ _ _ _ count chainId gasPrice Hc Hi Hg).
    unfold settles at 1.
    destruct (o _ (EthSendSignedTransaction _ _)) as [[hash | error] | err];
      [| split; reflexivity | split; reflexivity].
    cbn [andThen]. rewrite runOn_bind.
    rewrite (SendEthTransaction_run env o _ _ _ _ count chainId gasPrice Hc Hi Hg).
    unfold settles.
    destruct (o _ (EthSendSignedTransaction _ _)) as [[hash2 | error] | err];
      split; reflexivity.
Qed.

(** Five units of the zero token: one transaction of value 5, whose hash is
    returned. *)
Lemma Deposit_submissions_witness :
  let call := runOn (oracleOf (Sample.chain 1))
                (SDK.Deposit Sample.env 5 (ADDRESS_ZERO Sample.env)) in
  submissions (trace call) =
    [Act (EthSendSignedTransaction
            {| tx_from := "0xC9"; tx_nonce := 3; tx_chainId := 1; tx_to := "0xE7";
               tx_data := providerDeposit (ADDRESS_ZERO Sample.env) 5;
               tx_value := 5; tx_gasPrice := 1000000000; tx_gasLimit := 300000 |}
            "6a22")] /\
  outcome call = Returned "0xd0".
Proof.
  apply (Deposit_submissions Sample.env (oracleOf (Sample.chain 1)) 5
           (ADDRESS_ZERO Sample.env) 3 1 1000000000);
    reflexivity.
Defined.

(** Five units of another token: the approval, then the deposit. *)
Example Deposit_of_token :
  runOn (oracleOf (Sample.chain 1)) (SDK.Deposit Sample.env 5 Sample.token) =
  (Returned "0xd0",
   [Act (EthGetTransactionCount "0xC9"); Act EthNetGetId; Act EthGetGasPrice;
    Act (EthSendSignedTransaction
           {| tx_from := "0xC9"; tx_nonce := 3; tx_chainId := 1; tx_to := "0xE7";
              tx_data := approve "0xE7" 5; tx_value := 0;
              tx_gasPrice := 1000000000; tx_gasLimit := 300000 |} "6a22");
    Act (EthGetTransactionCount "0xC9"); Act EthNetGetId; Act EthGetGasPrice;
    Act (EthSendSignedTransaction
           {| tx_from := "0xC9"; tx_nonce := 3; tx_chainId := 1; tx_to := "0xE7";
              tx_data := providerDeposit "0x9a" 5; tx_value := 0;
              tx_gasPrice := 1000000000; tx_gasLimit := 300000 |} "6a22")]).
Proof. reflexivity. Qed.

(* ================================================================== *)
(** * The transaction history *)
(* ================================================================== *)

(** The comparator of [GetAllTXs] never moves a log: it subtracts two
    properties that event logs do not have. *)
Lemma cmpNonce_is_NaN (a b : Event) : SDK.cmpNonce "nonce" a b = Js.NaN.
Proof. reflexivity. Qed.

Lemma sort_cmpNonce (l : list Event) : Js.sort (SDK.cmpNonce "nonce") l = l.
Proof.
  induction l as [| x l IH]; [reflexivity |].
  cbn [Js.sort]. rewrite IH. destruct l; reflexivity.
Qed.

(** The running balance of the incoming list is the starting balance of the
    outgoing list. *)
Lemma allTXs_shares_balance (inTXs outTXs : list Event) :
  SDK.allTXs inTXs outTXs =
  match SDK.mapTX 0 inTXs with
  | Some (ins, lastBalance) =>
      match SDK.mapTX lastBalance outTXs with
      | Some (outs, _) => Some (ins, outs)
      | None => None
      end
  | None => None
  end.
Proof. unfold SDK.allTXs. now rewrite !sort_cmpNonce. Qed.

(** C10 fails on the code at this input: two incoming transfers, logged with
    nonces 5 and 1 and cumulative balances 500 and 10, and one outgoing
    transfer with cumulative balance 700.  [GetAllTXs] reports the incoming
    ones in the order of the query, with amounts 500 and -490; in ascending
    order of nonce they would come as 10 and 490.  The outgoing amount, 690
    or 200, is in both cases taken against the last incoming balance. *)
Theorem GetAllTXs_does_not_sort_by_nonce :
  let inTXs := [Sample.transferEvent "0xa" "5" "500";
                Sample.transferEvent "0xb" "1" "10"] in
  let outTXs := [Sample.transferEvent "0xc" "1" "700"] in
  let summary r :=
    option_map (fun io : list SDK.TX * list SDK.TX =>
                  (map (fun t => (SDK.id t, SDK.amount t)) (fst io),
                   map (fun t => (SDK.id t, SDK.amount t)) (snd io))) r in
  summary (SDK.allTXs inTXs outTXs) =
    Some ([("0xa", 500); ("0xb", -490)], [("0xc", 690)]) /\
  summary (Spec.allTXs inTXs outTXs) =
    Some ([("0xb", 10); ("0xa", 490)], [("0xc", 200)]).
Proof. cbn zeta. split; reflexivity. Qed.

(* ================================================================== *)
(** * Calls on one channel, one after another and interleaved *)
(* ================================================================== *)

Lemma transferNonces_app (tr1 tr2 : list Action) :
  Ledger.transferNonces (tr1 ++ tr2) =
  Ledger.transferNonces tr1 ++ Ledger.transferNonces tr2.
Proof.
  induction tr1 as [| [R e] tr1 IH]; [reflexivity |].
  cbn [app Ledger.transferNonces]. destruct e; try exact IH.
  destruct call; try exact IH. cbn [app]. now rewrite IH.
Qed.

Lemma rebalanceNonces_app (tr1 tr2 : list Action) :
  Ledger.rebalanceNonces (tr1 ++ tr2) =
  Ledger.rebalanceNonces tr1 ++ Ledger.rebalanceNonces tr2.
Proof.
  induction tr1 as [| [R e] tr1 IH]; [reflexivity |].
  cbn [app Ledger.rebalanceNonces]. destruct e; try exact IH.
  destruct call; try exact IH. cbn [app]. now rewrite IH.
Qed.

Lemma Consecutive_lower (nonces : list Z) :
  forall first n, Ledger.Consecutive first nonces -> In n nonces -> first <= n.
Proof.
  induction nonces as [| x r IH]; intros first n H Hin; [contradiction |].
  destruct H as [-> Hr]. destruct Hin as [<- | Hin]; [lia |].
  specialize (IH _ _ Hr Hin). lia.
Qed.

(** Consecutive nonces are pairwise different. *)
Lemma Consecutive_NoDup (nonces : list Z) :
  forall first, Ledger.Consecutive first nonces -> NoDup nonces.
Proof.
  induction nonces as [| x r IH]; intros first H; [constructor |].
  destruct H as [-> Hr]. constructor; [| exact (IH _ Hr)].
  intros Hin. pose proof (Consecutive_lower _ _ _ Hr Hin). lia.
Qed.

(** One [SendAsset] on the ledger, on an open channel and with an amount
    that is not negative: the transfer carries the stored nonce plus 1 and
    the ledger stores it; the rebalance proof is not touched. *)
Lemma SendAsset_on_ledger (env : Env) (l : Ledger.t) (to token : string) (amount : Z) :
  let channelID := String.append to (String.append "/" token) in
  let stored := Ledger.proofs l channelID to in
  Z.abs (ch_status (Ledger.channels l channelID)) < 2 ^ 53 ->
  ch_status (Ledger.channels l channelID) = CHANNEL_STATUS_OPEN env ->
  0 <= amount ->
  exists (tr : list Action) (l1 : Ledger.t),
    run Ledger.respond (SDK.SendAsset env to amount token) l =
      (Returned (RString "confirm success"), tr, l1) /\
    Ledger.transferNonces tr = [bp_nonce stored + 1] /\
    Ledger.rebalanceNonces tr = [] /\
    Ledger.channels l1 = Ledger.channels l /\
    Ledger.networks l1 = Ledger.networks l /\
    Ledger.rebalances l1 = Ledger.rebalances l /\
    bp_nonce (Ledger.proofs l1 channelID to) = bp_nonce stored + 1.
Proof.
  intros channelID stored Hb Hs Ha. subst stored.
  unfold SDK.SendAsset. cbn -[Js.toDouble String.append Ledger.send].
  fold channelID. rewrite status_test by exact Hb. rewrite Hs, Z.eqb_refl.
  cbn -[String.append Ledger.send]. fold channelID.
  unfold Ledger.send.
  assert (Hacc : Ledger.accepts (Ledger.proofs l channelID to)
                   (amount + bp_balance (Ledger.proofs l channelID to))
                   (bp_nonce (Ledger.proofs l channelID to) + 1) = true).
  { unfold Ledger.accepts. rewrite Z.eqb_refl. apply Z.leb_le. lia. }
  rewrite Hacc. cbn -[String.append Ledger.txDigits].
  rewrite String.eqb_refl. cbn -[String.append Ledger.txDigits].
  do 2 eexists. split; [reflexivity |].
  cbn -[String.append]. rewrite !String.eqb_refl. cbn. auto 10.
Qed.

(** One [ProposeReBalance] on the ledger, on an open channel and with an
    amount that is not negative: either the guard refuses it and nothing
    is submitted, or the proposal carries the stored nonce plus 1 and the
    ledger stores it; the balance proofs are not touched. *)
Lemma ProposeReBalance_on_ledger (env : Env) (l : Ledger.t) (user token : string)
    (amount : Z) :
  let channelID := String.append user (String.append "/" token) in
  let stored := Ledger.rebalances l channelID in
  Z.abs (ch_status (Ledger.channels l channelID)) < 2 ^ 53 ->
  ch_status (Ledger.channels l channelID) = CHANNEL_STATUS_OPEN env ->
  0 <= amount ->
  exists (r : OpResult) (tr : list Action) (l1 : Ledger.t),
    run Ledger.respond (SDK.ProposeReBalance env user amount token) l =
      (Returned r, tr, l1) /\
    Ledger.transferNonces tr = [] /\
    Ledger.channels l1 = Ledger.channels l /\
    Ledger.networks l1 = Ledger.networks l /\
    Ledger.proofs l1 = Ledger.proofs l /\
    ((pn_providerBalance (Ledger.networks l token) < amount - rp_amount stored /\
      Ledger.rebalanceNonces tr = [] /\
      Ledger.rebalances l1 = Ledger.rebalances l) \/
     (amount - rp_amount stored <= pn_providerBalance (Ledger.networks l token) /\
      Ledger.rebalanceNonces tr = [rp_nonce stored + 1] /\
      rp_nonce (Ledger.rebalances l1 channelID) = rp_nonce stored + 1 /\
      rp_amount (Ledger.rebalances l1 channelID) = rp_amount stored + amount)).
Proof.
  intros channelID stored Hb Hs Ha. subst stored.
  unfold SDK.ProposeReBalance. cbn -[Js.toDouble String.append Ledger.send].
  fold channelID. rewrite status_test by exact Hb. rewrite Hs, Z.eqb_refl.
  cbn -[String.append Ledger.send]. fold channelID.
  destruct (Z.ltb_spec (pn_providerBalance (Ledger.networks l token))
              (amount - rp_amount (Ledger.rebalances l channelID))) as [Hlt | Hge].
  - do 3 eexists. split; [reflexivity |]. cbn. auto 10.
  - cbn -[String.append Ledger.send]. unfold Ledger.send.
    assert (Hacc : Ledger.acceptsRebalance (Ledger.rebalances l channelID)
                     (rp_amount (Ledger.rebalances l channelID) + amount)
                     (rp_nonce (Ledger.rebalances l channelID) + 1) = true).
    { unfold Ledger.acceptsRebalance. rewrite Z.eqb_refl. apply Z.leb_le. lia. }
    rewrite Hacc. cbn -[String.append Ledger.txDigits].
    rewrite String.eqb_refl. cbn -[String.append Ledger.txDigits].
    do 3 eexists. split; [reflexivity |].
    cbn -[String.append]. rewrite !String.eqb_refl. cbn. auto 10.
Qed.

Lemma covered_later (l l1 : Ledger.t) (channelID token : string) (calls : list Ledger.Call) :
  Ledger.networks l1 = Ledger.networks l ->
  rp_amount (Ledger.rebalances l channelID) <= rp_amount (Ledger.rebalances l1 channelID) ->
  Forall (Ledger.covered l channelID token) calls ->
  Forall (Ledger.covered l1 channelID token) calls.
Proof.
  intros Hn Hle H. induction H as [| call calls Hc _ IH]; constructor; [| exact IH].
  destruct call; [exact I |]. cbn in *. rewrite Hn. lia.
Qed.

(** Calls made one after another on the ledger: what the two streams of
    nonces come to. *)
Lemma sequential_calls_streams (env : Env) (user token : string) (calls : list Ledger.Call) :
  let channelID := String.append user (String.append "/" token) in
  forall l : Ledger.t,
    Z.abs (ch_status (Ledger.channels l channelID)) < 2 ^ 53 ->
    ch_status (Ledger.channels l channelID) = CHANNEL_STATUS_OPEN env ->
    Forall (fun call => 0 <= Ledger.amountOf call) calls ->
    let tr := snd (fst (run Ledger.respond
                          (forEach calls (Ledger.issue env user token)) l)) in
    Ledger.Consecutive (bp_nonce (Ledger.proofs l channelID user) + 1)
      (Ledger.transferNonces tr) /\
    Ledger.Consecutive (rp_nonce (Ledger.rebalances l channelID) + 1)
      (Ledger.rebalanceNonces tr) /\
    List.length (Ledger.transferNonces tr) = Ledger.sends calls /\
    (Forall (Ledger.covered l channelID token) calls ->
     List.length (Ledger.rebalanceNonces tr) = Ledger.proposals calls).
Proof.
  intros channelID. induction calls as [| call calls IH]; intros l Hb Hs Hall.
  - cbn. auto.
  - inversion Hall as [| ? ? Ha Hrest]; subst.
    destruct call as [amount | amount]; cbn [Ledger.amountOf] in Ha.
    + destruct (SendAsset_on_ledger env l user token amount Hb Hs Ha)
        as (tr & l1 & Hrun & Ht & Hr & Hch & Hn & Hrb & Hst).
      fold channelID in Ht, Hch, Hst.
      cbn [forEach Ledger.issue]. rewrite !run_bind, Hrun. cbn [run].
      specialize (IH l1). rewrite Hch in IH. specialize (IH Hb Hs Hrest).
      destruct (run Ledger.respond (forEach calls _) l1) as [[o tr2] l2].
      cbn [fst snd] in *. rewrite app_nil_r, transferNonces_app, rebalanceNonces_app, Ht, Hr.
      cbn [app Ledger.Consecutive List.length Ledger.sends Ledger.proposals].
      rewrite Hst, Hrb in IH. destruct IH as (IH1 & IH2 & IH3 & IH4).
      repeat split; auto.
      intros Hcov. inversion Hcov as [| ? ? _ Hcov']; subst. apply IH4.
      apply (covered_later l l1); [exact Hn | rewrite Hrb; lia | exact Hcov'].
    + destruct (ProposeReBalance_on_ledger env l user token amount Hb Hs Ha)
        as (r & tr & l1 & Hrun & Ht & Hch & Hn & Hpr & Hcase).
      fold channelID in Hch, Hcase.
      cbn [forEach Ledger.issue]. rewrite !run_bind, Hrun. cbn [run].
      specialize (IH l1). rewrite Hch in IH. specialize (IH Hb Hs Hrest).
      destruct (run Ledger.respond (forEach calls _) l1) as [[o tr2] l2].
      cbn [fst snd] in *. rewrite app_nil_r, transferNonces_app, rebalanceNonces_app, Ht.
      rewrite Hpr in IH. destruct IH as (IH1 & IH2 & IH3 & IH4).
      destruct Hcase as [(Hlt & Hr & Hrb) | (Hge & Hr & Hnonce & Hamount)]; rewrite Hr.
      * cbn [app Ledger.Consecutive List.length Ledger.sends Ledger.proposals].
        rewrite Hrb in IH2. repeat split; auto.
        intros Hcov. inversion Hcov as [| ? ? Hc _]; subst. cbn in Hc. lia.
      * cbn [app Ledger.Consecutive List.length Ledger.sends Ledger.proposals].
        rewrite Hnonce in IH2. repeat split; auto.
        intros Hcov. inversion Hcov as [| ? ? _ Hcov']; subst. f_equal. apply IH4.
        apply (covered_later l l1); [exact Hn | rewrite Hamount; lia | exact Hcov'].
Qed.

(** A call that runs alone takes the same steps in the pool as under
    [run]. *)
Example interleave_alone :
  let call := SDK.SendAsset Sample.env Sample.user 5 Sample.token in
  map snd (fst (fst (interleave Ledger.respond [0; 0; 0; 0; 0; 0]%nat [task call]
                       Sample.ledger))) =
  snd (fst (run Ledger.respond call Sample.ledger)).
Proof. reflexivity. Qed.

(** C6, as stated, fails: the code takes no lock.  Two [SendAsset] calls on
    the sample channel (stored nonce 7), taking their steps in turn, both
    read the stored proof before either transfer is submitted, and both
    transfers carry nonce 8. *)
Lemma concurrent_SendAsset_share_a_nonce :
  let pool := [task (SDK.SendAsset Sample.env Sample.user 5 Sample.token);
               task (SDK.SendAsset Sample.env Sample.user 7 Sample.token)] in
  let inTurn := [0; 1; 0; 1; 0; 1; 0; 1; 0; 1; 0; 1]%nat in
  let tr := map snd (fst (fst (interleave Ledger.respond inTurn pool Sample.ledger))) in
  Ledger.transferNonces tr = [8; 8] /\ ~ NoDup (Ledger.transferNonces tr).
Proof.
  cbn zeta. split; [reflexivity |].
  intros H. inversion H as [| x r Hnotin _]. apply Hnotin. left. reflexivity.
Qed.

(** The same two calls, the second taking its steps after the first has
    finished: nonces 8 and 9. *)
Example consecutive_SendAsset_schedule :
  let pool := [task (SDK.SendAsset Sample.env Sample.user 5 Sample.token);
               task (SDK.SendAsset Sample.env Sample.user 7 Sample.token)] in
  let oneThenOther := [0; 0; 0; 0; 0; 0; 1; 1; 1; 1; 1; 1]%nat in
  Ledger.transferNonces
    (map snd (fst (fst (interleave Ledger.respond oneThenOther pool Sample.ledger)))) =
  [8; 9].
Proof. reflexivity. Qed.

(** Two [ProposeReBalance] calls in turn share a nonce in the same way. *)
Example concurrent_ProposeReBalance_share_a_nonce :
  let pool := [task (SDK.ProposeReBalance Sample.env Sample.user 5 Sample.token);
               task (SDK.ProposeReBalance Sample.env Sample.user 7 Sample.token)] in
  let inTurn := [0; 1; 0; 1; 0; 1; 0; 1; 0; 1; 0; 1; 0; 1]%nat in
  Ledger.rebalanceNonces
    (map snd (fst (fst (interleave Ledger.respond inTurn pool Sample.ledger)))) =
  [5; 5].
Proof. reflexivity. Qed.

(** C6 (amended): [SendAsset] and [ProposeReBalance] calls on one open
    channel that are made one after another, each awaited before the next,
    with amounts that are not negative, on a ledger that stores every
    accepted proof: in each of the two streams the nonces of the proofs
    produced go up by 1 from one proof to the next, starting at the stored
    nonce of that stream plus 1, so that no two proofs of a stream carry the
    same nonce.  Every [SendAsset] produces a proof, and so does every
    [ProposeReBalance] whose amount the provider balance covers. *)
Theorem sequential_calls_nonces (env : Env) (user token : string)
    (calls : list Ledger.Call) (l : Ledger.t) :
  let channelID := String.append user (String.append "/" token) in
  Z.abs (ch_status (Ledger.channels l channelID)) < 2 ^ 53 ->
  ch_status (Ledger.channels l channelID) = CHANNEL_STATUS_OPEN env ->
  Forall (fun call => 0 <= Ledger.amountOf call) calls ->
  let tr := snd (fst (run Ledger.respond
                        (forEach calls (Ledger.issue env user token)) l)) in
  let transfers := Ledger.transferNonces tr in
  let proposals := Ledger.rebalanceNonces tr in
  Ledger.Consecutive (bp_nonce (Ledger.proofs l channelID user) + 1) transfers /\
  Ledger.Consecutive (rp_nonce (Ledger.rebalances l channelID) + 1) proposals /\
  NoDup transfers /\
  NoDup proposals /\
  List.length transfers = Ledger.sends calls /\
  (Forall (Ledger.covered l channelID token) calls ->
   List.length proposals = Ledger.proposals calls).
Proof.
  intros channelID Hb Hs Hall tr transfers proposals.
  destruct (sequential_calls_streams env user token calls l Hb Hs Hall)
    as (H1 & H2 & H3 & H4).
  fold channelID tr transfers proposals in H1, H2, H3, H4.
  repeat split; try assumption.
  - exact (Consecutive_NoDup _ _ H1).
  - exact (Consecutive_NoDup _ _ H2).
Qed.

(** Five calls on the sample channel (stored nonces 7 and 4): the transfers
    carry 8, 9, 10 and the rebalance proposals 5, 6. *)
Lemma sequential_calls_nonces_witness :
  let calls := [Ledger.CallSendAsset 5; Ledger.CallProposeReBalance 5;
                Ledger.CallSendAsset 7; Ledger.CallProposeReBalance 0;
                Ledger.CallSendAsset 0] in
  let tr := snd (fst (run Ledger.respond
                        (forEach calls (Ledger.issue Sample.env Sample.user Sample.token))
                        Sample.ledger)) in
  (Ledger.transferNonces tr = [8; 9; 10] /\ Ledger.rebalanceNonces tr = [5; 6]) /\
  Ledger.Consecutive 8 (Ledger.transferNonces tr) /\
  Ledger.Consecutive 5 (Ledger.rebalanceNonces tr) /\
  NoDup (Ledger.transferNonces tr) /\
  NoDup (Ledger.rebalanceNonces tr) /\
  List.length (Ledger.transferNonces tr) = 3%nat /\
  List.length (Ledger.rebalanceNonces tr) = 2%nat.
Proof.
  cbn zeta. split; [split; reflexivity |].
  destruct (sequential_calls_nonces Sample.env Sample.user Sample.token
              [Ledger.CallSendAsset 5; Ledger.CallProposeReBalance 5;
               Ledger.CallSendAsset 7; Ledger.CallProposeReBalance 0;
               Ledger.CallSendAsset 0]
              Sample.ledger)
    as (H1 & H2 & H3 & H4 & H5 & H6).
  - reflexivity.
  - reflexivity.
  - repeat constructor; cbn; lia.
  - split; [exact H1 |]. split; [exact H2 |]. split; [exact H3 |].
    split; [exact H4 |]. split; [exact H5 |].
    apply H6. repeat constructor; cbn; lia.
Defined.

(* ================================================================== *)
(** * Further properties of the operations *)
(* ================================================================== *)

Lemma GetLastCommitBlock_eth (env : Env) (o : Oracle) (block : Z) :
  o _ (GetBlockNumber Eth) = Fulfilled block ->
  runOn o (Common.GetLastCommitBlock env "eth") =
  (Returned (block + COMMIT_BLOCK_CONDITION env), [Act (GetBlockNumber Eth)]).
Proof.
  intros H. unfold Common.GetLastCommitBlock.
  cbn [String.eqb Ascii.eqb Bool.eqb bind await]. ask H. reflexivity.
Qed.

(** What [confirm] comes to, case by case. *)
Lemma confirm_run (o : Oracle) (rs : SendResult) :
  runOn o (SDK.confirm rs) =
  match rs_hash rs with
  | Some hash =>
      if String.eqb hash "" then (Returned (RString "send CITA tx fail"), [])
      else
        (match o _ (ListenToTransactionReceipt hash) with
         | Fulfilled receipt =>
             Returned (RString (if Js.truthy (errorMessage receipt)
                                then "confirm fail" else "confirm success"))
         | Rejected err => Thrown err
         end,
         [Act (ListenToTransactionReceipt hash)])
  | None => (Returned (RString "send CITA tx fail"), [])
  end.
Proof.
  unfold SDK.confirm. destruct (rs_hash rs) as [hash |]; [| reflexivity].
  destruct (String.eqb hash ""); [reflexivity |].
  cbn [bind await]. rewrite runOn_Vis.
  destruct (o _ (ListenToTransactionReceipt hash)) as [receipt | err]; [| reflexivity].
  cbn [bind]. destruct (Js.truthy _); reflexivity.
Qed.

(** X1: when both guards pass, [ProposeWithdraw] submits exactly one
    transaction: the proposal for the token carrying the on-chain total less
    the amount (the balance that remains, not the amount itself) and, as
    validity horizon, the primary-chain head plus [COMMIT_BLOCK_CONDITION];
    its envelope is valid until the application-chain head plus 88. *)
Theorem ProposeWithdraw_proposal (env : Env) (o : Oracle) (amount : Z) (token : string)
    (pn : PaymentNetwork) (citaHead ethHead : Z) :
  o _ (AppPaymentNetworkMap token) = Fulfilled pn ->
  amount <= pn_providerOnchainBalance pn ->
  pn_providerOnchainBalance pn - amount <= pn_providerBalance pn ->
  o _ (GetBlockNumber Cita) = Fulfilled citaHead ->
  o _ (GetBlockNumber Eth) = Fulfilled ethHead ->
  submissions (trace (runOn o (SDK.ProposeWithdraw env amount token))) =
  [Act (AppSend
          (providerProposeWithdraw token (pn_providerOnchainBalance pn - amount)
             (ethHead + COMMIT_BLOCK_CONDITION env))
          {| atx_privateKey := cpProvider_privateKey env;
             atx_from := cpProvider_address env;
             atx_validUntilBlock := citaHead + 88 |})].
Proof.
  intros Hpn Hle1 Hle2 Hc He. unfold SDK.ProposeWithdraw. cbn [bind await]. ask Hpn.
  destruct (Z.ltb_spec (pn_providerOnchainBalance pn) amount); [lia |].
  destruct (Z.ltb_spec (pn_providerBalance pn) (pn_providerOnchainBalance pn - amount));
    [lia |].
  rewrite runOn_bind, (BuildAppChainTX_run env o citaHead Hc). cbn [andThen].
  rewrite runOn_bind, (GetLastCommitBlock_eth env o ethHead He). cbn [andThen].
  cbn [bind await]. rewrite runOn_Vis.
  cbn [trace outcome snd fst app submissions filter isSubmission]. f_equal.
  destruct (o _ (AppSend _ _)) as [rs | err]; [| reflexivity].
  cbn [bind]. apply confirm_submits_nothing.
Qed.

(** Amount 10 against on-chain total 40 and tracked balance 40: the
    proposal carries 30. *)
Lemma ProposeWithdraw_proposal_witness :
  submissions (trace (runOn (oracleOf (Sample.chain 1))
                        (SDK.ProposeWithdraw Sample.env 10 Sample.token))) =
  [Act (AppSend (providerProposeWithdraw Sample.token (40 - 10) (1000 + 12))
          {| atx_privateKey := "0x6a22"; atx_from := "0xC9";
             atx_validUntilBlock := 1000 + 88 |})].
Proof.
  apply (ProposeWithdraw_proposal Sample.env (oracleOf (Sample.chain 1)) 10 Sample.token
           (Sample.paymentNetwork 40 40) 1000 1000);
    try reflexivity; cbn; lia.
Defined.

(** X2: what [SendAsset] returns on an open channel is decided by the
    answer to the submission alone: without a transaction hash (none, or an
    empty one) it returns "send CITA tx fail" and asks for no receipt; with
    a hash it returns "confirm success" when the receipt carries no error
    message (none, or an empty one) and "confirm fail" when it carries
    one. *)
Theorem SendAsset_outcome (env : Env) (o : Oracle) (to token channelID : string)
    (amount block : Z) (channel : Channel) (bp : BalanceProof) (rs : SendResult) :
  let send :=
    AppSend
      (transfer to channelID (amount + bp_balance bp) (bp_nonce bp + 1) "0x0"
         (Common.SignatureToHex env
            (signHash env
               {| channelID := channelID; balance := amount + bp_balance bp;
                  nonce := bp_nonce bp + 1; additionalHash := "0x0" |})))
      {| atx_privateKey := cpProvider_privateKey env;
         atx_from := cpProvider_address env;
         atx_validUntilBlock := block + 88 |} in
  let call := runOn o (SDK.SendAsset env to amount token) in
  o _ (EthGetChannelID to token) = Fulfilled channelID ->
  o _ (AppChannelMap channelID) = Fulfilled channel ->
  Z.abs (ch_status channel) < 2 ^ 53 ->
  ch_status channel = CHANNEL_STATUS_OPEN env ->
  o _ (GetBlockNumber Cita) = Fulfilled block ->
  o _ (AppBalanceProofMap channelID to) = Fulfilled bp ->
  o _ send = Fulfilled rs ->
  (Js.truthy (rs_hash rs) = false ->
   outcome call = Returned (RString "send CITA tx fail") /\
   forall hash, ~ In (Act (ListenToTransactionReceipt hash)) (trace call)) /\
  (forall hash receipt,
     rs_hash rs = Some hash -> hash <> "" ->
     o _ (ListenToTransactionReceipt hash) = Fulfilled receipt ->
     outcome call =
       Returned (RString (if Js.truthy (errorMessage receipt)
                          then "confirm fail" else "confirm success"))).
Proof.
  intros send call Hid Hch Hb Hs Hblk Hbp Hsend.
  assert (E : call =
              (outcome (runOn o (SDK.confirm rs)),
               [Act (EthGetChannelID to token); Act (AppChannelMap channelID);
                Act (GetBlockNumber Cita); Act (AppBalanceProofMap channelID to);
                Act send]
               ++ trace (runOn o (SDK.confirm rs)))).
  { unfold call, SDK.SendAsset. cbn [bind await]. ask Hid. ask Hch.
    rewrite status_test, Hs, Z.eqb_refl by assumption. cbn [negb].
    rewrite runOn_bind, (BuildAppChainTX_run env o block Hblk). cbn [andThen].
    cbn [bind await]. ask Hbp. fold send. ask Hsend. reflexivity. }
  rewrite E, confirm_run. split.
  - intros Hf. unfold Js.truthy in Hf.
    destruct (rs_hash rs) as [hash |].
    + apply negb_false_iff in Hf. rewrite Hf. split; [reflexivity |].
      cbn. intros h [H | [H | [H | [H | [H | []]]]]]; discriminate H.
    + split; [reflexivity |].
      cbn. intros h [H | [H | [H | [H | [H | []]]]]]; discriminate H.
  - intros hash receipt Hh Hne Hr. rewrite Hh.
    destruct (String.eqb_spec hash ""); [contradiction |].
    rewrite Hr. reflexivity.
Qed.

(** On the sample chain the submission gets hash ["0xf0"] and a receipt
    without error message. *)
Lemma SendAsset_outcome_witness :
  outcome (runOn (oracleOf (Sample.chain 1))
             (SDK.SendAsset Sample.env Sample.user 5 Sample.token)) =
  Returned (RString "confirm success").
Proof.
  apply (SendAsset_outcome Sample.env (oracleOf (Sample.chain 1))
           Sample.user Sample.token Sample.channel 5 1000
           {| ch_status := 1; ch_token := Sample.token |}
           (s_balanceProof (Sample.chain 1) Sample.channel Sample.user)
           {| rs_hash := Some "0xf0" |}
           eq_refl eq_refl eq_refl eq_refl eq_refl eq_refl eq_refl)
    with (hash := "0xf0") (receipt := {| errorMessage := None |});
    [reflexivity | discriminate | reflexivity].
Defined.

(** X3: on an open channel [CloseChannel] submits exactly one transaction,
    to the payment contract on the primary chain and without value, whose
    call bundles the provider's balance proof and the rebalance proof of the
    channel; it asks for no receipt and returns once the broadcast has
    yielded a hash. *)
Theorem CloseChannel_submission (env : Env) (o : Oracle) (user token channelID : string)
    (channel : Channel) (bp : BalanceProof) (rp : RebalanceProof)
    (count chainId gasPrice : Z) :
  let send :=
    EthSendSignedTransaction
      {| tx_from := cpProvider_address env; tx_nonce := count; tx_chainId := chainId;
         tx_to := ethPN_address env;
         tx_data := closeChannel channelID (bp_balance bp) (bp_nonce bp)
                      (bp_additionalHash bp) (bp_partnerSignature bp)
                      (rp_inAmount rp) (rp_inNonce rp)
                      (rp_regulatorSignature rp) (rp_inProviderSignature rp);
         tx_value := 0; tx_gasPrice := gasPrice; tx_gasLimit := 300000 |}
      (Js.strip0x (cpProvider_privateKey env)) in
  let call := runOn o (SDK.CloseChannel env user token) in
  o _ (EthGetChannelID user token) = Fulfilled channelID ->
  o _ (AppChannelMap channelID) = Fulfilled channel ->
  Z.abs (ch_status channel) < 2 ^ 53 ->
  ch_status channel = CHANNEL_STATUS_OPEN env ->
  o _ (AppBalanceProofMap channelID (cpProvider_address env)) = Fulfilled bp ->
  o _ (AppRebalanceProofMap channelID) = Fulfilled rp ->
  o _ (EthGetTransactionCount (cpProvider_address env)) = Fulfilled count ->
  o _ EthNetGetId = Fulfilled chainId ->
  o _ EthGetGasPrice = Fulfilled gasPrice ->
  submissions (trace call) = [Act send] /\
  (forall hash, ~ In (Act (ListenToTransactionReceipt hash)) (trace call)) /\
  (forall hash, o _ send = Fulfilled (OnTransactionHash hash) ->
                outcome call = Returned tt) /\
  (forall error, o _ send = Fulfilled (OnError error) -> outcome call = Pending).
Proof.
  intros send call Hid Hch Hb Hs Hbp Hrp Hc Hi Hg.
  assert (E : call =
              (match settles (o _ send) with
               | Returned _ => Returned tt
               | Thrown err => Thrown err
               | Pending => Pending
               end,
               [Act (EthGetChannelID user token); Act (AppChannelMap channelID);
                Act (AppBalanceProofMap channelID (cpProvider_address env));
                Act (AppRebalanceProofMap channelID);
                Act (EthGetTransactionCount (cpProvider_address env));
                Act EthNetGetId; Act EthGetGasPrice; Act send])).
  { unfold call, SDK.CloseChannel. cbn [bind await]. ask Hid. ask Hch.
    rewrite status_test, Hs, Z.eqb_refl by assumption. cbn [negb].
    unfold awaitBoth. cbn [bind]. ask Hbp. ask Hrp.
    rewrite runOn_bind.
    rewrite (SendEthTransaction_run env o _ _ _ _ count chainId gasPrice Hc Hi Hg).
    fold send. destruct (settles (o _ send)); reflexivity. }
  rewrite E. repeat split.
  - cbn. intros h [H | [H | [H | [H | [H | [H | [H | [H | []]]]]]]]]; discriminate H.
  - intros hash H. rewrite H. reflexivity.
  - intros error H. rewrite H. reflexivity.
Qed.

Lemma CloseChannel_submission_witness :
  let call := runOn (oracleOf (Sample.chain 1))
                (SDK.CloseChannel Sample.env Sample.user Sample.token) in
  submissions (trace call) =
    [Act (EthSendSignedTransaction
            {| tx_from := "0xC9"; tx_nonce := 3; tx_chainId := 1; tx_to := "0xE7";
               tx_data := closeChannel Sample.channel 100 7 ZERO_HASH "0x00"
                            "30" "4" "0x00" "0x00";
               tx_value := 0; tx_gasPrice := 1000000000; tx_gasLimit := 300000 |}
            "6a22")] /\
  outcome call = Returned tt.
Proof.
  destruct (CloseChannel_submission Sample.env (oracleOf (Sample.chain 1))
              Sample.user Sample.token Sample.channel
              {| ch_status := 1; ch_token := Sample.token |}
              (s_balanceProof (Sample.chain 1) Sample.channel "0xC9")
              (s_rebalanceProof (Sample.chain 1) Sample.channel)
              3 1 1000000000
              eq_refl eq_refl eq_refl eq_refl eq_refl eq_refl eq_refl eq_refl eq_refl)
    as (Hsub & _ & Hret & _).
  split; [exact Hsub | exact (Hret "0xd0" eq_refl)].
Defined.

(** X4: [GetChannelInfo] answers "no channel" exactly when the channel id
    it resolves is the empty string, and then without reading the channel;
    for any other id, the all-zero id included, it returns what the channel
    map holds under it. *)
Theorem GetChannelInfo_result (o : Oracle) (user token channelID : string)
    (channel : Channel) :
  o _ (EthGetChannelID user token) = Fulfilled channelID ->
  o _ (AppChannelMap channelID) = Fulfilled channel ->
  let call := runOn o (SDK.GetChannelInfo user token) in
  (channelID = "" ->
   call = (Returned SDK.NoChannel, [Act (EthGetChannelID user token)])) /\
  (channelID <> "" ->
   call = (Returned (SDK.Info channel),
           [Act (EthGetChannelID user token); Act (AppChannelMap channelID)])).
Proof.
  intros Hid Hch. cbn zeta. unfold SDK.GetChannelInfo. cbn [bind await]. ask Hid.
  destruct (String.eqb_spec channelID ""); split; intros H; try contradiction.
  - reflexivity.
  - ask Hch. reflexivity.
Qed.

(** The all-zero id is read like any other. *)
Lemma GetChannelInfo_result_witness :
  runOn (oracleOf (Sample.withChannelID ZERO_HASH (Sample.chain 1)))
        (SDK.GetChannelInfo Sample.user Sample.token) =
  (Returned (SDK.Info {| ch_status := 1; ch_token := Sample.token |}),
   [Act (EthGetChannelID Sample.user Sample.token); Act (AppChannelMap ZERO_HASH)]).
Proof.
  apply (GetChannelInfo_result (oracleOf (Sample.withChannelID ZERO_HASH (Sample.chain 1)))
           Sample.user Sample.token ZERO_HASH
           {| ch_status := 1; ch_token := Sample.token |} eq_refl eq_refl).
  discriminate.
Defined.

(* ================================================================== *)
(** * Further properties of the poller *)
(* ================================================================== *)

(** X5: the filter of a table entry passes an event exactly when every
    field the filter names is present in the event's values, is not empty,
    and equals the filter's value up to the case of letters.  So an entry
    without filter fields passes every event, and an event that lacks a
    named field never passes. *)
Theorem filterResult_matches (returnValues filter : list (string * string)) :
  HttpWatcher.filterResult returnValues filter = true <->
  forall k v, In (k, v) filter ->
    exists x, Js.lookup k returnValues = Some x /\ x <> "" /\
              Js.toLowerCase x = Js.toLowerCase v.
Proof.
  unfold HttpWatcher.filterResult. rewrite forallb_forall. split.
  - intros H k v Hin. specialize (H (k, v) Hin). cbn [fst snd] in H.
    destruct (Js.lookup k returnValues) as [x |]; [| discriminate].
    apply andb_true_iff in H. destruct H as [Hne Heq].
    exists x. repeat split.
    + intros ->. discriminate Hne.
    + now apply String.eqb_eq.
  - intros H [k v] Hin. cbn [fst snd].
    destruct (H k v Hin) as (x & -> & Hne & Heq).
    apply andb_true_iff. split.
    + apply negb_true_iff. now apply String.eqb_neq.
    + now apply String.eqb_eq.
Qed.

Example filterResult_samples :
  let logged := [("from", "0xA0"); ("to", "0xc9AB"); ("memo", "")] in
  HttpWatcher.filterResult logged [] = true /\
  HttpWatcher.filterResult logged [("to", "0xC9ab")] = true /\
  HttpWatcher.filterResult logged [("to", "0xC9ab"); ("user", "0xA0")] = false /\
  HttpWatcher.filterResult logged [("memo", "")] = false.
Proof. repeat split; reflexivity. Qed.

(** An event is answered with the [TypeError] exactly when its name is no
    property of the table itself and is the name of a member of
    [Object.prototype]. *)
Lemma inherited_spec (item : HttpWatcher.WatchItem) (event : Event) :
  HttpWatcher.inherited item event = true <->
  Js.lookup (ev_event event) (HttpWatcher.listener item) = None /\
  In (ev_event event) Js.objectPrototype.
Proof.
  unfold HttpWatcher.inherited, Js.getMember.
  destruct (Js.lookup _ _) as [setting |].
  - split; [discriminate | intros [H _]; discriminate H].
  - destruct (existsb _ _) eqn:E.
    + split; [intros _ | reflexivity]. split; [reflexivity |].
      apply existsb_exists in E. destruct E as (name & Hin & Heq).
      apply String.eqb_eq in Heq. now subst.
    + split; [discriminate | intros [_ Hin]].
      rewrite <- E. apply existsb_exists. exists (ev_event event).
      split; [exact Hin | apply String.eqb_refl].
Qed.

Lemma not_inherited (item : HttpWatcher.WatchItem) (event : Event) :
  (Js.lookup (ev_event event) (HttpWatcher.listener item) = None ->
   ~ In (ev_event event) Js.objectPrototype) ->
  HttpWatcher.inherited item event = false.
Proof.
  intros H. destruct (HttpWatcher.inherited item event) eqn:E; [| reflexivity].
  apply inherited_spec in E. destruct E as [Hnone Hin]. now contradiction (H Hnone).
Qed.

Lemma outcome_unit (r : Outcome unit * list Action) :
  outcome r <> Returned tt ->
  exists tr, (r = (Pending, tr) \/ exists err, r = (Thrown err, tr)).
Proof.
  destruct r as [[[] | err |] tr]; cbn; intros H.
  - now contradiction H.
  - exists tr. right. now exists err.
  - exists tr. now left.
Qed.

Lemma andThen_returned {A B : Type} (o : Oracle) (r : Outcome A * list Action)
    (a : A) (f : A -> Prog B) :
  outcome r = Returned a ->
  andThen o r f = (outcome (runOn o (f a)), trace r ++ trace (runOn o (f a))).
Proof. destruct r as [out tr]. cbn. intros ->. reflexivity. Qed.

Lemma andThen_not_returned {A B : Type} (o : Oracle) (r : Outcome A * list Action)
    (f : A -> Prog B) :
  (forall a, outcome r <> Returned a) ->
  andThen o r f =
  (match outcome r with
   | Returned _ => Pending
   | Thrown err => Thrown err
   | Pending => Pending
   end, trace r).
Proof.
  destruct r as [[a | err |] tr]; cbn; intros H; [now contradiction (H a) | reflexivity..].
Qed.

Lemma forEach_ext {A : Type} (l : list A) (f g : A -> Prog unit) :
  (forall x, f x = g x) -> forEach l f = forEach l g.
Proof.
  intros H. induction l as [| x l IH]; [reflexivity |].
  cbn [forEach]. now rewrite H, IH.
Qed.

(** The body of the loop of [processAllEvent], through [reaction]. *)
Lemma processAllEvent_body (item : HttpWatcher.WatchItem) (event : Event) :
  match Js.getMember (ev_event event) (HttpWatcher.listener item) with
  | Js.Own setting =>
      if HttpWatcher.filterResult (ev_returnValues event) (HttpWatcher.filter setting)
      then HttpWatcher.handler setting event
      else Ret tt
  | Js.Inherited =>
      Throw "TypeError: watchItem.listener[eventName].filter is not a function"
  | Js.Missing => Ret tt
  end =
  HttpWatcher.reaction item event.
Proof.
  unfold HttpWatcher.reaction, HttpWatcher.inherited, HttpWatcher.dispatch, Js.getMember.
  destruct (Js.lookup _ _) as [setting |].
  - destruct (HttpWatcher.filterResult _ _); reflexivity.
  - destruct (existsb _ _); reflexivity.
Qed.

Lemma processAllEvent_loop (o : Oracle) (a b : Z) (item : HttpWatcher.WatchItem)
    (events : list Event) :
  o _ (GetPastEvents (HttpWatcher.contract item) "allEvents" [] (Some (a, b))) =
    Fulfilled events ->
  runOn o (HttpWatcher.processAllEvent a b item) =
  (outcome (runOn o (forEach events (HttpWatcher.reaction item))),
   Act (GetPastEvents (HttpWatcher.contract item) "allEvents" [] (Some (a, b)))
   :: trace (runOn o (forEach events (HttpWatcher.reaction item)))).
Proof.
  intros Hev. unfold HttpWatcher.processAllEvent. cbn [bind await]. ask Hev.
  now rewrite (forEach_ext events _ _ (processAllEvent_body item)).
Qed.

(** The loop of [processAllEvent] over events none of which bears an
    inherited name and whose handler calls all return, followed by what is
    left of the batch. *)
Lemma forEach_reaction_app (o : Oracle) (item : HttpWatcher.WatchItem)
    (events rest : list Event) :
  (forall event, In event events -> HttpWatcher.inherited item event = false) ->
  (forall call, In call (HttpWatcher.dispatches item events) ->
                outcome (runOn o call) = Returned tt) ->
  runOn o (forEach (events ++ rest) (HttpWatcher.reaction item)) =
  (outcome (runOn o (forEach rest (HttpWatcher.reaction item))),
   flat_map (fun call => trace (runOn o call)) (HttpWatcher.dispatches item events)
   ++ trace (runOn o (forEach rest (HttpWatcher.reaction item)))).
Proof.
  induction events as [| event events IH]; intros Hown Hall.
  - cbn [app HttpWatcher.dispatches flat_map].
    now destruct (runOn o (forEach rest _)).
  - cbn [app forEach]. rewrite runOn_bind.
    unfold HttpWatcher.reaction at 1. rewrite (Hown event) by now left.
    unfold HttpWatcher.dispatches in *. cbn [flat_map] in *.
    destruct (HttpWatcher.dispatch item event) as [call |].
    + rewrite (andThen_returned o _ tt) by (apply Hall; now left).
      rewrite IH; [| intros e Hin; apply Hown; now right
                   | intros c Hin; apply Hall; now right].
      cbn [outcome trace fst snd app]. now rewrite app_assoc.
    + rewrite runOn_Ret. cbn [andThen].
      rewrite IH; [| intros e Hin; apply Hown; now right
                   | intros c Hin; apply Hall; exact Hin].
      reflexivity.
Qed.

(** X6: [processAllEvent] fetches all events of the contract in the range
    and, as long as no event bears a name that the table only inherits
    from [Object.prototype] and the handlers return, calls for each event
    in turn the handler of the table entry under the event's name when
    that entry's filter passes; an event whose name the table does not
    know at all, or which the filter stops, is passed over without any
    request and without error. *)
Theorem processAllEvent_handles_selected (o : Oracle) (a b : Z)
    (item : HttpWatcher.WatchItem) (events : list Event) :
  o _ (GetPastEvents (HttpWatcher.contract item) "allEvents" [] (Some (a, b))) =
    Fulfilled events ->
  (forall event, In event events ->
     Js.lookup (ev_event event) (HttpWatcher.listener item) = None ->
     ~ In (ev_event event) Js.objectPrototype) ->
  (forall call, In call (HttpWatcher.dispatches item events) ->
                outcome (runOn o call) = Returned tt) ->
  runOn o (HttpWatcher.processAllEvent a b item) =
  (Returned tt,
   Act (GetPastEvents (HttpWatcher.contract item) "allEvents" [] (Some (a, b)))
   :: flat_map (fun call => trace (runOn o call)) (HttpWatcher.dispatches item events)).
Proof.
  intros Hev Hown Hall. rewrite (processAllEvent_loop o a b item events Hev).
  rewrite <- (app_nil_r events) at 1 2.
  rewrite (forEach_reaction_app o item events []);
    [| intros event Hin; apply not_inherited, Hown, Hin | exact Hall].
  cbn [forEach outcome trace fst snd]. rewrite runOn_Ret. cbn [fst snd].
  now rewrite app_nil_r.
Qed.

(** The contract of the primary chain logged one transfer to the provider,
    which the sample handler reports to the callback. *)
Lemma processAllEvent_handles_selected_witness :
  runOn (oracleOf (Sample.withPastEvents Sample.logs (Sample.chain 1)))
        (HttpWatcher.processAllEvent 990 1000 (Sample.watchItem EthPN)) =
  (Returned tt,
   [Act (GetPastEvents EthPN "allEvents" [] (Some (990, 1000)));
    Act (Callback "Transfer" (OTHER_EVENT [("txhash", "0x0e")]))]).
Proof.
  apply (processAllEvent_handles_selected
           (oracleOf (Sample.withPastEvents Sample.logs (Sample.chain 1)))
           990 1000 (Sample.watchItem EthPN) (Sample.logs EthPN) eq_refl).
  - intros event [<- | []] H. discriminate H.
  - intros call [<- | []]. reflexivity.
Defined.

(** X7: [processAllEvent] ends with the first handler call that does not
    return: it ends as that call ends, and the events after it get no
    handler call.  (The events before it bear no name that the table only
    inherits from [Object.prototype].) *)
Theorem processAllEvent_stops_at_first_failure (o : Oracle) (a b : Z)
    (item : HttpWatcher.WatchItem) (before after : list Event) (event : Event)
    (call : Prog unit) :
  o _ (GetPastEvents (HttpWatcher.contract item) "allEvents" [] (Some (a, b))) =
    Fulfilled (before ++ event :: after) ->
  (forall e, In e before ->
     Js.lookup (ev_event e) (HttpWatcher.listener item) = None ->
     ~ In (ev_event e) Js.objectPrototype) ->
  (forall c, In c (HttpWatcher.dispatches item before) ->
             outcome (runOn o c) = Returned tt) ->
  HttpWatcher.dispatch item event = Some call ->
  outcome (runOn o call) <> Returned tt ->
  runOn o (HttpWatcher.processAllEvent a b item) =
  (outcome (runOn o call),
   Act (GetPastEvents (HttpWatcher.contract item) "allEvents" [] (Some (a, b)))
   :: flat_map (fun c => trace (runOn o c)) (HttpWatcher.dispatches item before)
      ++ trace (runOn o call)).
Proof.
  intros Hev Hown Hbefore Hd Hfail.
  rewrite (processAllEvent_loop o a b item _ Hev).
  rewrite (forEach_reaction_app o item before (event :: after));
    [| intros e Hin; apply not_inherited, Hown, Hin | exact Hbefore].
  assert (Hin : HttpWatcher.inherited item event = false).
  { unfold HttpWatcher.inherited, Js.getMember.
    unfold HttpWatcher.dispatch in Hd.
    destruct (Js.lookup _ _); [reflexivity | discriminate Hd]. }
  assert (E : runOn o (forEach (event :: after) (HttpWatcher.reaction item)) =
              runOn o call).
  { cbn [forEach]. rewrite runOn_bind. unfold HttpWatcher.reaction at 1.
    rewrite Hin, Hd.
    rewrite andThen_not_returned by (intros []; exact Hfail).
    destruct (runOn o call) as [[[] | err |] tr]; cbn in *;
      [now contradiction Hfail | reflexivity..]. }
  rewrite E. reflexivity.
Qed.

(** The sample logs of the application-chain contract: the handler fails on
    the first, and the second gets no call. *)
Lemma processAllEvent_stops_at_first_failure_witness :
  runOn (oracleOf (Sample.withPastEvents Sample.logs (Sample.chain 1)))
        (HttpWatcher.processAllEvent 990 1000 (Sample.watchItem AppPN)) =
  (Thrown "handler failed",
   [Act (GetPastEvents AppPN "allEvents" [] (Some (990, 1000)))]).
Proof.
  apply (processAllEvent_stops_at_first_failure
           (oracleOf (Sample.withPastEvents Sample.logs (Sample.chain 1)))
           990 1000 (Sample.watchItem AppPN) []
           [Sample.transferEvent "0x900d" "2" "20"]
           (Sample.transferEvent "0xbad" "1" "10")
           (Throw "handler failed") eq_refl).
  - intros e [].
  - intros c [].
  - reflexivity.
  - discriminate.
Defined.

(** X23: an event whose name the table does not have as a property of its
    own, but which names a member of [Object.prototype] ([toString],
    [constructor], ...), ends [processAllEvent] with a [TypeError], without
    any handler being involved: the test on the table finds the inherited
    member, which has no [filter] to call.  The events after it get no
    handler call. *)
Theorem processAllEvent_fails_on_prototype_name (o : Oracle) (a b : Z)
    (item : HttpWatcher.WatchItem) (before after : list Event) (event : Event) :
  o _ (GetPastEvents (HttpWatcher.contract item) "allEvents" [] (Some (a, b))) =
    Fulfilled (before ++ event :: after) ->
  (forall e, In e before ->
     Js.lookup (ev_event e) (HttpWatcher.listener item) = None ->
     ~ In (ev_event e) Js.objectPrototype) ->
  (forall c, In c (HttpWatcher.dispatches item before) ->
             outcome (runOn o c) = Returned tt) ->
  Js.lookup (ev_event event) (HttpWatcher.listener item) = None ->
  In (ev_event event) Js.objectPrototype ->
  runOn o (HttpWatcher.processAllEvent a b item) =
  (Thrown "TypeError: watchItem.listener[eventName].filter is not a function",
   Act (GetPastEvents (HttpWatcher.contract item) "allEvents" [] (Some (a, b)))
   :: flat_map (fun c => trace (runOn o c)) (HttpWatcher.dispatches item before)).
Proof.
  intros Hev Hown Hbefore Hnone Hproto.
  rewrite (processAllEvent_loop o a b item _ Hev).
  rewrite (forEach_reaction_app o item before (event :: after));
    [| intros e Hin; apply not_inherited, Hown, Hin | exact Hbefore].
  assert (Hin : HttpWatcher.inherited item event = true)
    by (apply inherited_spec; now split).
  assert (E : runOn o (forEach (event :: after) (HttpWatcher.reaction item)) =
              (Thrown "TypeError: watchItem.listener[eventName].filter is not a function",
               [])).
  { cbn [forEach]. unfold HttpWatcher.reaction at 1. rewrite Hin. reflexivity. }
  rewrite E. cbn [outcome trace fst snd]. now rewrite app_nil_r.
Qed.

(** A transfer, then a [toString] event, then another transfer: the first
    transfer is handled, the second is not. *)
Lemma processAllEvent_fails_on_prototype_name_witness :
  runOn (oracleOf (Sample.withPastEvents Sample.logsWithToString (Sample.chain 1)))
        (HttpWatcher.processAllEvent 990 1000 (Sample.watchItem AppPN)) =
  (Thrown "TypeError: watchItem.listener[eventName].filter is not a function",
   [Act (GetPastEvents AppPN "allEvents" [] (Some (990, 1000)));
    Act (Callback "Transfer" (OTHER_EVENT [("txhash", "0x0e")]))]).
Proof.
  apply (processAllEvent_fails_on_prototype_name
           (oracleOf (Sample.withPastEvents Sample.logsWithToString (Sample.chain 1)))
           990 1000 (Sample.watchItem AppPN)
           [Sample.transferEvent "0x0e" "1" "10"]
           [Sample.transferEvent "0x900d" "2" "20"]
           Sample.toStringEvent eq_refl).
  - intros e [<- | []] H. discriminate H.
  - intros c [<- | []]. reflexivity.
  - reflexivity.
  - cbn. tauto.
Defined.

(** The sample logs of the application-chain contract under [processEvent]:
    both handlers are called. *)
Lemma processEvent_dispatches_all_witness :
  runOn (oracleOf (Sample.withPastEvents Sample.logs (Sample.chain 1)))
        (HttpWatcher.processEvent 990 1000 AppPN "Transfer"
           {| HttpWatcher.filter := [("to", cpProvider_address Sample.env)];
              HttpWatcher.handler := Sample.failingOnBad |}) =
  (Returned tt,
   [Act (GetPastEvents AppPN "Transfer" [("to", "0xC9")] (Some (990, 1000)));
    Act (Callback "Transfer" (OTHER_EVENT [("txhash", "0x900d")]))]).
Proof.
  apply (processEvent_dispatches_all
           (oracleOf (Sample.withPastEvents Sample.logs (Sample.chain 1)))
           990 1000 AppPN "Transfer"
           {| HttpWatcher.filter := [("to", cpProvider_address Sample.env)];
              HttpWatcher.handler := Sample.failingOnBad |}
           (Sample.logs AppPN) eq_refl).
Defined.

(** ** The loops of [start] *)

Lemma runOn_tryCatch_returned {A : Type} (o : Oracle) (p : Prog A)
    (h : string -> Prog A) (a : A) :
  outcome (runOn o p) = Returned a -> runOn o (tryCatch p h) = runOn o p.
Proof.
  induction p as [A x | A err | A | A R e k IH | A c IHc k IHk]; cbn [tryCatch];
    try reflexivity; try discriminate.
  - rewrite !runOn_Vis. cbn [outcome fst]. intros H. now rewrite (IH _ h a H).
  - rewrite !runOn_Fork. cbn [outcome fst]. intros H. now rewrite (IHk h a H).
Qed.

(** The loop over the watch list returns, however the scans it starts
    end. *)
Lemma scan_returns (o : Oracle) (a b : Z) (enabled : bool)
    (items : list HttpWatcher.WatchItem) :
  o _ ReadEnabled = Fulfilled enabled ->
  exists stop, outcome (runOn o (HttpWatcher.scan a b items)) = Returned stop.
Proof.
  intros Hen. induction items as [| item items IH]; [now exists false |].
  cbn [HttpWatcher.scan]. rewrite runOn_Fork. cbn [bind await outcome fst].
  ask Hen. destruct enabled; cbn [negb]; [exact IH | now exists true].
Qed.

(** X8: the second loop of [start] is never ended by a failure of the head
    query or of a handler: when sleeping, logging and the read of the
    [enabled] flag succeed, it is still going after any number of ticks, or
    has returned because the watcher was disabled. *)
Theorem watching_never_throws (w : HttpWatcher.t) (o : Oracle) (enabled : bool)
    (ticks : nat) (currentBlockNumber : Z) :
  o _ (Sleep (HttpWatcher.blockInterval w)) = Fulfilled tt ->
  (forall err, o _ (LoggerError err) = Fulfilled tt) ->
  o _ ReadEnabled = Fulfilled enabled ->
  exists state,
    outcome (runOn o (HttpWatcher.watching w ticks currentBlockNumber)) = Returned state /\
    (state = HttpWatcher.Stopped \/ exists current, state = HttpWatcher.Watching current).
Proof.
  intros Hsleep Hlog Hen. revert currentBlockNumber.
  induction ticks as [| n IH]; intros cur.
  - exists (HttpWatcher.Watching cur). split; [reflexivity | right; now exists cur].
  - cbn [HttpWatcher.watching bind await]. ask Hsleep. rewrite runOn_Vis.
    cbn [outcome fst].
    destruct (o _ (GetBlockNumber (HttpWatcher.base w))) as [current | err].
    + destruct (current <? cur + 1); [apply IH |].
      rewrite runOn_bind.
      destruct (scan_returns o (cur + 1) current enabled (HttpWatcher.watchList w) Hen)
        as [stop Hstop].
      rewrite (runOn_tryCatch_returned o _ _ stop Hstop).
      rewrite (andThen_returned o _ stop _ Hstop). cbn [outcome fst].
      destruct stop; [| apply IH].
      exists HttpWatcher.Stopped. split; [reflexivity | now left].
    + cbn [bind await]. ask (Hlog err). apply IH.
Qed.

(** The sample watcher, whose first watch item has a failing handler, after
    three ticks. *)
Lemma watching_never_throws_witness :
  exists state,
    outcome (runOn (oracleOf (Sample.withPastEvents Sample.logs (Sample.chain 1)))
               (HttpWatcher.watching Sample.watcher 3 900)) = Returned state /\
    (state = HttpWatcher.Stopped \/ exists current, state = HttpWatcher.Watching current).
Proof.
  apply (watching_never_throws Sample.watcher
           (oracleOf (Sample.withPastEvents Sample.logs (Sample.chain 1))) true 3 900);
    reflexivity.
Defined.

(** X9: a watcher that is disabled when [start] is called still scans its
    first watch item before it returns: the flag is only read after a scan
    has been started. *)
Theorem start_disabled_scans_first_item (w : HttpWatcher.t) (o : Oracle)
    (head lastBlockNumber : Z)
    (item : HttpWatcher.WatchItem) (rest : list HttpWatcher.WatchItem)
    (rounds ticks : nat) :
  HttpWatcher.watchList w = item :: rest ->
  o _ (GetBlockNumber (HttpWatcher.base w)) = Fulfilled head ->
  HttpWatcher.startBlock lastBlockNumber head <= head ->
  o _ ReadEnabled = Fulfilled false ->
  runOn o (HttpWatcher.start w (S rounds) ticks lastBlockNumber) =
  (Returned HttpWatcher.Stopped,
   Act (GetBlockNumber (HttpWatcher.base w))
   :: trace (runOn o (HttpWatcher.processAllEvent
                        (HttpWatcher.startBlock lastBlockNumber head) head item))
      ++ [Act ReadEnabled]).
Proof.
  intros Hwl Hhead Hle Hen. unfold HttpWatcher.start. cbn [bind await]. ask Hhead.
  cbn [HttpWatcher.syncing].
  destruct (Z.leb_spec (HttpWatcher.startBlock lastBlockNumber head) head); [| lia].
  rewrite Hwl. cbn [HttpWatcher.scan bind await]. rewrite runOn_Fork. ask Hen.
  reflexivity.
Qed.

Lemma start_disabled_scans_first_item_witness :
  runOn (oracleOf (Sample.disabled (Sample.withPastEvents Sample.logs (Sample.chain 1))))
        (HttpWatcher.start Sample.watcher 1 0 0) =
  (Returned HttpWatcher.Stopped,
   [Act (GetBlockNumber Cita);
    Act (GetPastEvents AppPN "allEvents" [] (Some (990, 1000)));
    Act ReadEnabled]).
Proof.
  apply (start_disabled_scans_first_item Sample.watcher
           (oracleOf (Sample.disabled (Sample.withPastEvents Sample.logs (Sample.chain 1))))
           1000 0 (Sample.watchItem AppPN) [Sample.watchItem EthPN] 0 0);
    try reflexivity.
  cbn. lia.
Defined.

Lemma watching_idle (w : HttpWatcher.t) (o : Oracle) (ticks : nat) :
  HttpWatcher.watchList w = [] ->
  forall cur, HttpWatcher.neverStops (runOn o (HttpWatcher.watching w ticks cur)).
Proof.
  intros Hwl. unfold HttpWatcher.neverStops.
  induction ticks as [| n IH]; intros cur.
  - split; [discriminate | intros []].
  - cbn [HttpWatcher.watching bind await]. rewrite runOn_Vis.
    destruct (o _ (Sleep _)) as [[] | err]; cbn [bind outcome trace fst snd];
      [| split; [discriminate | intros [H | []]; discriminate H]].
    rewrite runOn_Vis. cbn [outcome trace fst snd].
    destruct (o _ (GetBlockNumber _)) as [current | err].
    + destruct (current <? cur + 1).
      * destruct (IH current) as [Ho Ht]. split; [exact Ho |].
        intros [H | [H | H]]; [discriminate H | discriminate H | exact (Ht H)].
      * rewrite Hwl. cbn [HttpWatcher.scan tryCatch bind].
        destruct (IH current) as [Ho Ht]. split; [exact Ho |].
        intros [H | [H | H]]; [discriminate H | discriminate H | exact (Ht H)].
    + cbn [bind await]. rewrite runOn_Vis. cbn [outcome trace fst snd].
      destruct (o _ (LoggerError err)) as [[] | err2]; cbn [bind].
      * destruct (IH cur) as [Ho Ht]. split; [exact Ho |].
        intros [H | [H | [H | H]]];
          [discriminate H | discriminate H | discriminate H | exact (Ht H)].
      * split; [discriminate |].
        intros [H | [H | [H | []]]]; discriminate H.
Qed.

Lemma syncing_idle (w : HttpWatcher.t) (o : Oracle) (rounds ticks : nat) :
  HttpWatcher.watchList w = [] ->
  forall last cur,
    HttpWatcher.neverStops (runOn o (HttpWatcher.syncing w rounds ticks last cur)).
Proof.
  intros Hwl. induction rounds as [| n IH]; intros last cur.
  - split; [discriminate | intros []].
  - cbn [HttpWatcher.syncing]. destruct (last <=? cur).
    + rewrite Hwl. cbn [HttpWatcher.scan bind await]. rewrite runOn_Vis.
      unfold HttpWatcher.neverStops. cbn [outcome trace fst snd].
      destruct (o _ (GetBlockNumber _)) as [current | err]; cbn [bind].
      * destruct (IH (cur + 1) current) as [Ho Ht]. split; [exact Ho |].
        intros [H | H]; [discriminate H | exact (Ht H)].
      * split; [discriminate | intros [H | []]; discriminate H].
    + now apply watching_idle.
Qed.

(** X10: a watcher without watch items cannot be stopped: [start] never
    reads the [enabled] flag and never returns as stopped, whatever the
    environment answers. *)
Theorem start_without_watch_items_never_stops (w : HttpWatcher.t) (o : Oracle)
    (rounds ticks : nat) (lastBlockNumber : Z) :
  HttpWatcher.watchList w = [] ->
  HttpWatcher.neverStops (runOn o (HttpWatcher.start w rounds ticks lastBlockNumber)).
Proof.
  intros Hwl. unfold HttpWatcher.start. cbn [bind await]. rewrite runOn_Vis.
  unfold HttpWatcher.neverStops. cbn [outcome trace fst snd].
  destruct (o _ (GetBlockNumber _)) as [current | err]; cbn [bind].
  - destruct (syncing_idle w o rounds ticks Hwl
                (HttpWatcher.startBlock lastBlockNumber current) current) as [Ho Ht].
    split; [exact Ho |]. intros [H | H]; [discriminate H | exact (Ht H)].
  - split; [discriminate | intros [H | []]; discriminate H].
Qed.

(** Disabled from the start, the watcher without watch items is still
    going after five rounds and five ticks. *)
Lemma start_without_watch_items_never_stops_witness :
  HttpWatcher.neverStops
    (runOn (oracleOf (Sample.disabled (Sample.chain 1)))
       (HttpWatcher.start Sample.idleWatcher 5 5 0)).
Proof.
  apply (start_without_watch_items_never_stops Sample.idleWatcher
           (oracleOf (Sample.disabled (Sample.chain 1))) 5 5 0 eq_refl).
Defined.

(** Started from block 995 under head 1000, the first scan is 995 to
    1000. *)
Lemma start_scans_from_given_block_witness :
  HttpWatcher.firstScan
    (trace (runOn (oracleOf (Sample.chain 1))
              (HttpWatcher.start Sample.watcher 1 0 995))) =
  Some (995, 1000).
Proof.
  apply (start_scans_from_given_block Sample.watcher (oracleOf (Sample.chain 1)) 1000 995
           (Sample.watchItem AppPN) [Sample.watchItem EthPN] 0 0);
    try reflexivity; [discriminate | cbn; lia].
Defined.

(** ** The ranges scanned while the head moves *)

Lemma scanRanges_app (tr1 tr2 : list Action) :
  HttpWatcher.scanRanges (tr1 ++ tr2) =
  HttpWatcher.scanRanges tr1 ++ HttpWatcher.scanRanges tr2.
Proof.
  induction tr1 as [| [R e] tr1 IH]; [reflexivity |].
  cbn [app HttpWatcher.scanRanges]. destruct e; try exact IH.
  destruct range; [cbn [app]; now rewrite IH | exact IH].
Qed.

Section Quiet.
Variable o : Oracle.
(** No contract logged anything, sleeping succeeds and the watcher is
    enabled. *)
Hypothesis quiet : forall contract eventName filter range,
    o _ (GetPastEvents contract eventName filter range) = Fulfilled [].
Hypothesis sleeps : forall time, o _ (Sleep time) = Fulfilled tt.
Hypothesis enabled : o _ ReadEnabled = Fulfilled true.

Lemma scan_quiet (a b : Z) (items : list HttpWatcher.WatchItem) (heads : list Z) :
  exists tr,
    run (Heads.respond o) (HttpWatcher.scan a b items) heads = (Returned false, tr, heads) /\
    HttpWatcher.scanRanges tr = repeat (a, b) (List.length items).
Proof.
  induction items as [| item items IH].
  - exists []. split; reflexivity.
  - destruct IH as (tr & Hrun & Hr).
    cbn [HttpWatcher.scan run]. unfold HttpWatcher.processAllEvent.
    cbn [bind await run Heads.respond]. rewrite quiet, enabled.
    cbn [bind forEach run negb]. rewrite Hrun.
    eexists. split; [reflexivity |].
    cbn [app HttpWatcher.scanRanges List.length repeat]. now rewrite Hr.
Qed.

Lemma run_tryCatch_returned {W A : Type}
    (respond : forall R : Type, Eff R -> W -> Settled R * W)
    (p : Prog A) (h : string -> Prog A) (a : A) (w w1 : W) (tr : list Action) :
  run respond p w = (Returned a, tr, w1) ->
  run respond (tryCatch p h) w = (Returned a, tr, w1).
Proof.
  revert w w1 tr.
  induction p as [A x | A err | A | A R e k IH | A c IHc k IHk]; intros w w1 tr;
    cbn [tryCatch run]; try (intros H; exact H); try discriminate.
  - destruct (respond R e w) as [s w2].
    destruct (run respond (k s) w2) as [[out tr2] w3] eqn:E.
    intros H. injection H as -> <- ->. now rewrite (IH s h a _ _ _ E).
  - destruct (run respond c w) as [[outc trc] w2].
    destruct (run respond k w2) as [[out tr2] w3] eqn:E.
    intros H. injection H as -> <- ->. now rewrite (IHk h a _ _ _ E).
Qed.

(** The ranges the second loop scans, for each watch item, while the head
    is read as [heads]. *)
Lemma watching_ranges (w : HttpWatcher.t) (heads : list Z) :
  forall cur,
    HttpWatcher.scanRanges
      (snd (fst (run (Heads.respond o)
                   (HttpWatcher.watching w (List.length heads) cur) heads))) =
    flat_map (fun range => repeat range (List.length (HttpWatcher.watchList w)))
             (HttpWatcher.tickRanges cur heads).
Proof.
  induction heads as [| head heads IH]; intros cur; [reflexivity |].
  cbn [List.length HttpWatcher.watching bind await run Heads.respond].
  rewrite sleeps. cbn [bind run Heads.respond HttpWatcher.tickRanges].
  destruct (head <? cur + 1).
  - specialize (IH head).
    destruct (run (Heads.respond o) (HttpWatcher.watching w (List.length heads) head) heads)
      as [[out tr] hs].
    cbn [fst snd HttpWatcher.scanRanges] in *. exact IH.
  - rewrite run_bind.
    destruct (scan_quiet (cur + 1) head (HttpWatcher.watchList w) heads)
      as (trs & Hrun & Hr).
    rewrite (run_tryCatch_returned _ _ _ _ _ _ _ Hrun).
    specialize (IH head).
    destruct (run (Heads.respond o) (HttpWatcher.watching w (List.length heads) head) heads)
      as [[out tr] hs].
    cbn [fst snd HttpWatcher.scanRanges flat_map] in *.
    now rewrite scanRanges_app, Hr, IH.
Qed.
End Quiet.




Example watching_ranges_sample :
  HttpWatcher.scanRanges
    (snd (fst (run (Heads.respond (oracleOf (Sample.chain 1)))
                 (HttpWatcher.watching Sample.watcher 4 1000)
                 [1000; 1003; 1003; 1010]))) =
  [(1001, 1003); (1001, 1003); (1004, 1010); (1004, 1010)].
Proof. reflexivity. Qed.

(** X14: after a head reading below the last one, the next scan starts
    right after that lower reading: the blocks between it and the head read
    earlier, which were scanned before, are scanned again. *)
Theorem watching_rescans_after_lower_head (w : HttpWatcher.t) (o : Oracle)
    (currentBlockNumber lower head : Z) :
  (forall contract eventName filter range,
      o _ (GetPastEvents contract eventName filter range) = Fulfilled []) ->
  (forall time, o _ (Sleep time) = Fulfilled tt) ->
  o _ ReadEnabled = Fulfilled true ->
  lower < currentBlockNumber ->
  lower < head ->
  HttpWatcher.scanRanges
    (snd (fst (run (Heads.respond o)
                 (HttpWatcher.watching w 2 currentBlockNumber) [lower; head]))) =
  repeat (lower + 1, head) (List.length (HttpWatcher.watchList w)).
Proof.
  intros Hq Hs He Hlow Hhead.
  pose proof (watching_ranges o Hq Hs He w [lower; head] currentBlockNumber) as E.
  cbn [List.length] in E. rewrite E.
  cbn [HttpWatcher.tickRanges].
  destruct (Z.ltb_spec lower (currentBlockNumber + 1)); [| lia].
  destruct (Z.ltb_spec head (lower + 1)); [lia |].
  cbn [flat_map]. now rewrite app_nil_r.
Qed.

(** Blocks up to 1000 were scanned; the head is read as 995 and then as
    1001: blocks 996 to 1000 are scanned again. *)
Lemma watching_rescans_after_lower_head_witness :
  HttpWatcher.scanRanges
    (snd (fst (run (Heads.respond (oracleOf (Sample.chain 1)))
                 (HttpWatcher.watching Sample.watcher 2 1000) [995; 1001]))) =
  repeat (995 + 1, 1001) 2.
Proof.
  apply (watching_rescans_after_lower_head Sample.watcher (oracleOf (Sample.chain 1))
           1000 995 1001);
    try reflexivity.
Defined.

(** X15: a block number given to [start] that lies beyond the head is
    dropped: nothing is scanned in the first loop, and the second loop scans
    from the block after the head, below the block that was asked for. *)
Theorem start_beyond_head_scans_from_head (w : HttpWatcher.t) (o : Oracle)
    (lastBlockNumber head next : Z) (rounds : nat) :
  (forall contract eventName filter range,
      o _ (GetPastEvents contract eventName filter range) = Fulfilled []) ->
  (forall time, o _ (Sleep time) = Fulfilled tt) ->
  o _ ReadEnabled = Fulfilled true ->
  lastBlockNumber <> 0 ->
  head < lastBlockNumber ->
  head < next ->
  HttpWatcher.scanRanges
    (snd (fst (run (Heads.respond o)
                 (HttpWatcher.start w (S rounds) 1 lastBlockNumber) [head; next]))) =
  repeat (head + 1, next) (List.length (HttpWatcher.watchList w)).
Proof.
  intros Hq Hs He Hnz Hlast Hnext.
  unfold HttpWatcher.start. cbn [bind await run Heads.respond HttpWatcher.syncing].
  unfold HttpWatcher.startBlock.
  destruct (Z.eqb_spec lastBlockNumber 0); [contradiction |].
  destruct (Z.leb_spec lastBlockNumber head); [lia |].
  pose proof (watching_ranges o Hq Hs He w [next] head) as E.
  cbn [List.length] in E.
  destruct (run (Heads.respond o) (HttpWatcher.watching w 1 head) [next])
    as [[out tr] hs].
  cbn [fst snd HttpWatcher.scanRanges] in *. rewrite E.
  cbn [HttpWatcher.tickRanges].
  destruct (Z.ltb_spec next (head + 1)); [lia |].
  cbn [flat_map]. now rewrite app_nil_r.
Qed.

(** Asked to start at block 2000 under head 1000, with the head read as
    1500 next: blocks 1001 to 1500 are scanned. *)
Lemma start_beyond_head_scans_from_head_witness :
  HttpWatcher.scanRanges
    (snd (fst (run (Heads.respond (oracleOf (Sample.chain 1)))
                 (HttpWatcher.start Sample.watcher 1 1 2000) [1000; 1500]))) =
  repeat (1000 + 1, 1500) 2.
Proof.
  apply (start_beyond_head_scans_from_head Sample.watcher (oracleOf (Sample.chain 1))
           2000 1000 1500 0);
    try reflexivity.
  discriminate.
Defined.

(* ================================================================== *)
(** * Further properties of the transaction history *)
(* ================================================================== *)

Lemma mapTX_app (l1 l2 : list Event) :
  forall b0,
    SDK.mapTX b0 (l1 ++ l2) =
    match SDK.mapTX b0 l1 with
    | Some (ts1, b1) =>
        match SDK.mapTX b1 l2 with
        | Some (ts2, b2) => Some (ts1 ++ ts2, b2)
        | None => None
        end
    | None => None
    end.
Proof.
  induction l1 as [| tx l1 IH]; intros b0.
  - cbn [app SDK.mapTX]. destruct (SDK.mapTX b0 l2) as [[ts2 b2] |]; reflexivity.
  - cbn [app SDK.mapTX]. destruct (SDK.getTX b0 tx) as [[t b] |]; [| reflexivity].
    rewrite IH. destruct (SDK.mapTX b l1) as [[ts1 b1] |]; [| reflexivity].
    destruct (SDK.mapTX b1 l2) as [[ts2 b2] |]; reflexivity.
Qed.

Lemma mapTX_telescopes (txs : list Event) :
  forall b0 ts b1,
    SDK.mapTX b0 txs = Some (ts, b1) ->
    map SDK.id ts = map ev_transactionHash txs /\
    fold_right Z.add 0 (map SDK.amount ts) = b1 - b0.
Proof.
  induction txs as [| tx txs IH]; intros b0 ts b1 H.
  - cbn in H. injection H as <- <-. split; [reflexivity | cbn; lia].
  - cbn [SDK.mapTX] in H. unfold SDK.getTX in H at 1.
    destruct (SDK.newBN _) as [b |]; [| discriminate].
    destruct (SDK.mapTX b txs) as [[ts' b'] |] eqn:E; [| discriminate].
    injection H as <- <-. destruct (IH _ _ _ E) as [Hid Hsum].
    cbn [map fold_right SDK.id SDK.amount]. split; [now rewrite Hid | lia].
Qed.

Lemma mapTX_last (front : list Event) (tx : Event) :
  forall b0 ts b1,
    SDK.mapTX b0 (front ++ [tx]) = Some (ts, b1) ->
    SDK.newBN (Js.lookup "balance" (ev_returnValues tx)) = Some b1.
Proof.
  intros b0 ts b1. rewrite mapTX_app.
  destruct (SDK.mapTX b0 front) as [[ts1 b] |]; [| discriminate].
  cbn [SDK.mapTX]. unfold SDK.getTX.
  destruct (SDK.newBN _) as [b' |]; [| discriminate].
  intros H. now injection H as _ <-.
Qed.

Lemma lookup_omit (ks : list string) (o : list (string * string)) (k : string) :
  Js.lookup k (Js.omit ks o) =
  if existsb (String.eqb k) ks then None else Js.lookup k o.
Proof.
  unfold Js.omit. induction o as [| [k' v] o IH].
  - cbn. now destruct (existsb _ ks).
  - cbn [filter fst Js.lookup].
    destruct (String.eqb_spec k k') as [<- | Hne].
    + destruct (existsb (String.eqb k) ks) eqn:E; cbn [negb].
      * rewrite IH. reflexivity.
      * cbn [Js.lookup]. now rewrite String.eqb_refl.
    + destruct (existsb (String.eqb k') ks); cbn [negb]; [exact IH |].
      cbn [Js.lookup]. destruct (String.eqb_spec k k'); [contradiction | exact IH].
Qed.

(** The history is computed whenever [newBN] follows every logged
    balance. *)
Lemma mapTX_defined (txs : list Event) :
  forall b0,
    (forall tx, In tx txs ->
       exists b, SDK.newBN (Js.lookup "balance" (ev_returnValues tx)) = Some b) ->
    exists ts b1, SDK.mapTX b0 txs = Some (ts, b1).
Proof.
  induction txs as [| tx txs IH]; intros b0 H.
  - now exists [], b0.
  - cbn [SDK.mapTX]. unfold SDK.getTX.
    destruct (H tx (or_introl eq_refl)) as [b ->].
    destruct (IH b (fun t Hin => H t (or_intror Hin))) as (ts & b1 & ->).
    now eexists _, _.
Qed.

(** The [id] and the [amount] that a reported transaction shows when the
    event logs no value under these names. *)
Lemma mapTX_props (txs : list Event) :
  forall b0 ts b1,
    SDK.mapTX b0 txs = Some (ts, b1) ->
    (forall tx, In tx txs ->
       Js.lookup "id" (ev_returnValues tx) = None /\
       Js.lookup "amount" (ev_returnValues tx) = None) ->
    map (fun t => SDK.prop t "id") ts = map (fun t => Some (SDK.id t)) ts /\
    map (fun t => SDK.prop t "amount") ts = map (fun t => Some (Js.showZ (SDK.amount t))) ts.
Proof.
  induction txs as [| tx txs IH]; intros b0 ts b1 H Hplain.
  - cbn in H. injection H as <- <-. split; reflexivity.
  - cbn [SDK.mapTX] in H. unfold SDK.getTX in H at 1.
    destruct (SDK.newBN _) as [b |]; [| discriminate].
    destruct (SDK.mapTX b txs) as [[ts' b'] |] eqn:E; [| discriminate].
    injection H as <- <-.
    destruct (IH _ _ _ E (fun t Hin => Hplain t (or_intror Hin))) as [Hid Ham].
    destruct (Hplain tx (or_introl eq_refl)) as [Hnoid Hnoam].
    cbn [map]. rewrite Hid, Ham. unfold SDK.prop. cbn [SDK.rest SDK.id SDK.amount].
    rewrite !lookup_omit. cbn [existsb String.eqb Ascii.eqb Bool.eqb orb].
    rewrite Hnoid, Hnoam. split; reflexivity.
Qed.

(** X16: when every logged balance is a string of decimal digits (or is
    missing or empty) and no event logs a value under the name [id] or
    [amount], [GetAllTXs] reports both kinds of transfers under their
    transaction hashes, in the order of the queries, and the amounts it
    reports, incoming then outgoing, are the decimal strings of numbers
    that add up to the cumulative balance of the last event of the two
    lists. *)
Theorem allTXs_amounts_add_up (inTXs outTXs : list Event) :
  (forall tx, In tx (inTXs ++ outTXs) ->
     exists b, SDK.newBN (Js.lookup "balance" (ev_returnValues tx)) = Some b) ->
  (forall tx, In tx (inTXs ++ outTXs) ->
     Js.lookup "id" (ev_returnValues tx) = None /\
     Js.lookup "amount" (ev_returnValues tx) = None) ->
  exists (ins outs : list SDK.TX) (amounts : list Z),
    SDK.allTXs inTXs outTXs = Some (ins, outs) /\
    map (fun t => SDK.prop t "id") ins =
      map (fun tx => Some (ev_transactionHash tx)) inTXs /\
    map (fun t => SDK.prop t "id") outs =
      map (fun tx => Some (ev_transactionHash tx)) outTXs /\
    map (fun t => SDK.prop t "amount") (ins ++ outs) =
      map (fun z => Some (Js.showZ z)) amounts /\
    forall front tx,
      inTXs ++ outTXs = front ++ [tx] ->
      SDK.newBN (Js.lookup "balance" (ev_returnValues tx)) =
      Some (fold_right Z.add 0 amounts).
Proof.
  intros Hdec Hplain.
  destruct (mapTX_defined (inTXs ++ outTXs) 0 Hdec) as (ts & b2 & E).
  pose proof E as E'. rewrite mapTX_app in E'.
  destruct (SDK.mapTX 0 inTXs) as [[ts1 b1] |] eqn:E1; [| discriminate].
  destruct (SDK.mapTX b1 outTXs) as [[ts2 b2'] |] eqn:E2; [| discriminate].
  injection E' as <- <-.
  exists ts1, ts2, (map SDK.amount (ts1 ++ ts2)).
  destruct (mapTX_telescopes _ _ _ _ E1) as [Hid1 _].
  destruct (mapTX_telescopes _ _ _ _ E2) as [Hid2 _].
  destruct (mapTX_telescopes _ _ _ _ E) as [_ Hsum].
  destruct (mapTX_props _ _ _ _ E1
              (fun t Hin => Hplain t (in_or_app _ _ _ (or_introl Hin)))) as [Hp1 _].
  destruct (mapTX_props _ _ _ _ E2
              (fun t Hin => Hplain t (in_or_app _ _ _ (or_intror Hin)))) as [Hp2 _].
  destruct (mapTX_props _ _ _ _ E Hplain) as [_ Hpam].
  split; [rewrite allTXs_shares_balance, E1, E2; reflexivity |].
  split; [rewrite Hp1, <- (map_map SDK.id Some), Hid1, map_map; reflexivity |].
  split; [rewrite Hp2, <- (map_map SDK.id Some), Hid2, map_map; reflexivity |].
  split; [rewrite Hpam, map_map; reflexivity |].
  intros front tx Hsplit. rewrite Hsplit in E. rewrite (mapTX_last _ _ _ _ _ E).
  f_equal. lia.
Qed.

(** Incoming 500 and 10, outgoing 700 (cumulative): the amounts "500",
    "-490" and "690" add up to 700. *)
Lemma allTXs_amounts_add_up_witness :
  let inTXs := [Sample.transferEvent "0xa" "5" "500"; Sample.transferEvent "0xb" "1" "10"] in
  let outTXs := [Sample.transferEvent "0xc" "1" "700"] in
  exists (ins outs : list SDK.TX) (amounts : list Z),
    SDK.allTXs inTXs outTXs = Some (ins, outs) /\
    map (fun t => SDK.prop t "id") ins = [Some "0xa"; Some "0xb"] /\
    map (fun t => SDK.prop t "id") outs = [Some "0xc"] /\
    map (fun t => SDK.prop t "amount") (ins ++ outs) =
      map (fun z => Some (Js.showZ z)) amounts /\
    forall front tx,
      inTXs ++ outTXs = front ++ [tx] ->
      SDK.newBN (Js.lookup "balance" (ev_returnValues tx)) =
      Some (fold_right Z.add 0 amounts).
Proof.
  cbn zeta.
  apply (allTXs_amounts_add_up
           [Sample.transferEvent "0xa" "5" "500"; Sample.transferEvent "0xb" "1" "10"]
           [Sample.transferEvent "0xc" "1" "700"]).
  - intros tx [<- | [<- | [<- | []]]]; eexists; reflexivity.
  - intros tx [<- | [<- | [<- | []]]]; split; reflexivity.
Defined.

Example allTXs_reported_amounts :
  option_map (fun io : list SDK.TX * list SDK.TX =>
                map (fun t => SDK.prop t "amount") (fst io ++ snd io))
    (SDK.allTXs [Sample.transferEvent "0xa" "5" "500"; Sample.transferEvent "0xb" "1" "10"]
                [Sample.transferEvent "0xc" "1" "700"]) =
  Some [Some "500"; Some "-490"; Some "690"].
Proof. reflexivity. Qed.

(** X17: a reported transaction carries every value logged with the event
    under its name, except the channel id and the cumulative balance, which
    it does not carry. *)
Theorem getTX_rest (lastBalance : Z) (tx : Event) (t : SDK.TX) (balance : Z) :
  SDK.getTX lastBalance tx = Some (t, balance) ->
  Js.lookup "channelID" (SDK.rest t) = None /\
  Js.lookup "balance" (SDK.rest t) = None /\
  forall k, k <> "channelID" -> k <> "balance" ->
            Js.lookup k (SDK.rest t) = Js.lookup k (ev_returnValues tx).
Proof.
  unfold SDK.getTX. destruct (SDK.newBN _) as [b |]; [| discriminate].
  intros H. injection H as <- _. cbn [SDK.rest].
  repeat split; try (rewrite lookup_omit; reflexivity).
  intros k H1 H2. rewrite lookup_omit. cbn [existsb].
  destruct (String.eqb_spec k "channelID"); [contradiction |].
  destruct (String.eqb_spec k "balance"); [contradiction | reflexivity].
Qed.

Lemma getTX_rest_witness :
  let t := {| SDK.id := "0xa"; SDK.amount := 500;
              SDK.rest := [("from", Sample.user); ("to", "0xC9"); ("nonce", "5");
                           ("additionalHash", ZERO_HASH)] |} in
  Js.lookup "channelID" (SDK.rest t) = None /\
  Js.lookup "balance" (SDK.rest t) = None /\
  forall k, k <> "channelID" -> k <> "balance" ->
            Js.lookup k (SDK.rest t) =
            Js.lookup k (ev_returnValues (Sample.transferEvent "0xa" "5" "500")).
Proof.
  apply (getTX_rest 0 (Sample.transferEvent "0xa" "5" "500") _ 500 eq_refl).
Defined.

(** X24: a value that the event logs under the name [id] or [amount]
    replaces, in the reported transaction, the transaction hash or the
    computed amount: the logged values are copied into the object after
    the two have been written. *)
Theorem getTX_logged_value_replaces (lastBalance : Z) (tx : Event) (t : SDK.TX)
    (balance : Z) (k v : string) :
  SDK.getTX lastBalance tx = Some (t, balance) ->
  k = "id" \/ k = "amount" ->
  Js.lookup k (ev_returnValues tx) = Some v ->
  SDK.prop t k = Some v.
Proof.
  unfold SDK.getTX. destruct (SDK.newBN _) as [b |]; [| discriminate].
  intros H Hk Hv. injection H as <- _. unfold SDK.prop. cbn [SDK.rest].
  rewrite lookup_omit.
  destruct Hk as [-> | ->]; cbn [existsb String.eqb Ascii.eqb Bool.eqb orb];
    now rewrite Hv.
Qed.

(** A transfer logged with a field [amount]: the reported amount is the
    logged "7", not the difference of the balances, 500. *)
Lemma getTX_logged_value_replaces_witness :
  let tx := {| ev_event := "Transfer"; ev_transactionHash := "0xa";
               ev_returnValues := [("balance", "500"); ("amount", "7")] |} in
  option_map (fun r : SDK.TX * Z => (SDK.amount (fst r), SDK.prop (fst r) "amount"))
    (SDK.getTX 0 tx) =
  Some (500, Some "7").
Proof.
  cbn zeta.
  destruct (SDK.getTX 0 {| ev_event := "Transfer"; ev_transactionHash := "0xa";
                           ev_returnValues := [("balance", "500"); ("amount", "7")] |})
    as [[t b] |] eqn:E; [| discriminate E].
  cbn [option_map fst].
  rewrite (getTX_logged_value_replaces 0 _ t b "amount" "7" E (or_intror eq_refl) eq_refl).
  injection E as <- _. reflexivity.
Defined.

(* ================================================================== *)
(** * Further properties of the handler of inbound transfers *)
(* ================================================================== *)

(** X18: the handler delivers a transfer to the external callback exactly
    when a callback is registered for "Transfer" and the additional hash of
    the event is the all-zero hash; it then delivers it once, with the
    channel's token, the transferred amount and the cumulative balance of
    the event.  Whatever the later requests for the fee come to, no other
    delivery is made. *)
Theorem Transfer_delivery (env : Env) (o : Oracle) (event : Event)
    (channelID : string) (channel : Channel) (registered : bool) :
  Js.lookup "channelID" (ev_returnValues event) = Some channelID ->
  o _ (AppChannelMap channelID) = Fulfilled channel ->
  o _ (CallbacksGet "Transfer") = Fulfilled registered ->
  let value k := Js.lookup k (ev_returnValues event) in
  let assetEvent :=
    TRANSFER_EVENT (value "from") (value "to") (ch_token channel)
      (value "transferAmount") (value "additionalHash") (value "balance") in
  deliveries (trace (runOn o (CITA_EVENTS.Transfer_handler env event))) =
  if registered && match value "additionalHash" with
                   | Some h => String.eqb h ZERO_HASH
                   | None => false
                   end
  then [Act (Callback "Transfer" assetEvent)]
  else [].
Proof.
  intros Hid Hch Hget. cbn zeta.
  unfold CITA_EVENTS.Transfer_handler. rewrite Hid.
  cbn [bind await]. ask Hch. ask Hget.
  cbn [trace snd deliveries filter isCallback].
  assert (Hfee :
            filter isCallback
              (trace (runOn o
                 (fp <- await (AppFeeProofMap (ch_token channel)) ;;
                  feeRate <- await (AppFeeRateMap (ch_token channel)) ;;
                  (if Js.toDouble feeRate =? 0 then Ret tt
                   else
                     bp <- await (AppBalanceProofMap channelID (cpProvider_address env)) ;;
                     match CITA_EVENTS.bn (Js.lookup "balance" (ev_returnValues event)) with
                     | Some balanceBN =>
                         Throw "TypeError: Common.SendAppChainTX is not a function"
                     | None => Throw "invalid number value"
                     end)))) = []).
  { cbn [bind await]. rewrite runOn_Vis. cbn [trace snd filter isCallback].
    destruct (o _ (AppFeeProofMap _)) as [fp | err]; [| reflexivity].
    cbn [bind]. rewrite runOn_Vis. cbn [trace snd filter isCallback].
    destruct (o _ (AppFeeRateMap _)) as [feeRate | err]; [| reflexivity].
    cbn [bind]. destruct (Js.toDouble feeRate =? 0); [reflexivity |].
    rewrite runOn_Vis. cbn [trace snd filter isCallback].
    destruct (o _ (AppBalanceProofMap _ _)) as [bp | err]; [| reflexivity].
    cbn [bind]. destruct (CITA_EVENTS.bn _); reflexivity. }
  cbn [bind await] in Hfee.
  destruct (registered && _)%bool; cbn [bind await].
  - rewrite runOn_Vis. cbn [trace snd filter isCallback]. f_equal.
    destruct (o _ (Callback _ _)) as [[] | err]; [| reflexivity].
    cbn [bind]. exact Hfee.
  - exact Hfee.
Qed.

(** The sample transfer, with the callback registered: one delivery. *)
Lemma Transfer_delivery_witness :
  deliveries (trace (runOn (oracleOf (Sample.withCallback (Sample.chain 1)))
                       (CITA_EVENTS.Transfer_handler Sample.env
                          (Sample.transferEvent "0x7e" "9" "1100")))) =
  [Act (Callback "Transfer"
          (TRANSFER_EVENT (Some Sample.user) (Some "0xC9") Sample.token None
             (Some ZERO_HASH) (Some "1100")))].
Proof.
  apply (Transfer_delivery Sample.env (oracleOf (Sample.withCallback (Sample.chain 1)))
           (Sample.transferEvent "0x7e" "9" "1100") Sample.channel
           {| ch_status := 1; ch_token := Sample.token |} true eq_refl eq_refl eq_refl).
Defined.

(** X19: when the callback throws, the handler ends with that exception
    right there: the fee data are not read and no fee claim is
    submitted. *)
Theorem Transfer_callback_failure (env : Env) (o : Oracle) (event : Event)
    (channelID : string) (channel : Channel) (err : string) :
  let value k := Js.lookup k (ev_returnValues event) in
  let assetEvent :=
    TRANSFER_EVENT (value "from") (value "to") (ch_token channel)
      (value "transferAmount") (value "additionalHash") (value "balance") in
  value "channelID" = Some channelID ->
  value "additionalHash" = Some ZERO_HASH ->
  o _ (AppChannelMap channelID) = Fulfilled channel ->
  o _ (CallbacksGet "Transfer") = Fulfilled true ->
  o _ (Callback "Transfer" assetEvent) = Rejected err ->
  runOn o (CITA_EVENTS.Transfer_handler env event) =
  (Thrown err,
   [Act (AppChannelMap channelID); Act (CallbacksGet "Transfer");
    Act (Callback "Transfer" assetEvent)]).
Proof.
  intros value assetEvent Hid Hah Hch Hget Hcb. subst assetEvent value.
  cbn beta in *. rewrite Hah in Hcb.
  unfold CITA_EVENTS.Transfer_handler. rewrite Hid, Hah.
  cbn [bind await]. ask Hch. ask Hget.
  rewrite String.eqb_refl. cbn [andb bind await]. ask Hcb. reflexivity.
Qed.

(** The sample transfer with a callback that throws. *)
Lemma Transfer_callback_failure_witness :
  let payload :=
    TRANSFER_EVENT (Some Sample.user) (Some "0xC9") Sample.token None
      (Some ZERO_HASH) (Some "1100") in
  runOn Sample.throwingCallback
        (CITA_EVENTS.Transfer_handler Sample.env
           (Sample.transferEvent "0x7e" "9" "1100")) =
  (Thrown "callback failed",
   [Act (AppChannelMap Sample.channel); Act (CallbacksGet "Transfer");
    Act (Callback "Transfer" payload)]).
Proof.
  cbn zeta.
  apply (Transfer_callback_failure Sample.env Sample.throwingCallback
           (Sample.transferEvent "0x7e" "9" "1100") Sample.channel
           {| ch_status := 1; ch_token := Sample.token |} "callback failed");
    reflexivity.
Defined.



(* ================================================================== *)
(** * Further properties of the helpers of [Common] *)
(* ================================================================== *)

Lemma substring_all (s : string) : substring 0 (String.length s) s = s.
Proof. induction s as [| c s IH]; [reflexivity |]. cbn. now rewrite IH. Qed.

Lemma strip0x_prefixed (s : string) : Js.strip0x (String "0" (String "x" s)) = s.
Proof.
  unfold Js.strip0x.
  assert (E : substring 0 2 (String "0" (String "x" s)) = "0x") by (now destruct s).
  rewrite E. cbn. rewrite Nat.sub_0_r. apply substring_all.
Qed.

Lemma strip0x_plain (s : string) : substring 0 2 s <> "0x" -> Js.strip0x s = s.
Proof.
  intros H. unfold Js.strip0x.
  destruct (String.eqb_spec (substring 0 2 s) "0x"); [contradiction | reflexivity].
Qed.

(** X20: the signature that [SignatureToHex] makes does not depend on
    whether the message hash, or the private key, is written with the [0x]
    prefix or without it. *)
Theorem SignatureToHex_ignores_prefix (env env' : Env) (messageHash : string) :
  substring 0 2 messageHash <> "0x" ->
  substring 0 2 (cpProvider_privateKey env) <> "0x" ->
  ecsign env' = ecsign env ->
  cpProvider_privateKey env' = String "0" (String "x" (cpProvider_privateKey env)) ->
  Common.SignatureToHex env (String "0" (String "x" messageHash)) =
    Common.SignatureToHex env messageHash /\
  Common.SignatureToHex env' messageHash = Common.SignatureToHex env messageHash.
Proof.
  intros Hh Hk He Hk'. unfold Common.SignatureToHex.
  rewrite strip0x_prefixed, Hk', strip0x_prefixed, He.
  now rewrite (strip0x_plain _ Hh), (strip0x_plain _ Hk).
Qed.

Lemma SignatureToHex_ignores_prefix_witness :
  Common.SignatureToHex Sample.plainKeyEnv "0x5a" =
    Common.SignatureToHex Sample.plainKeyEnv "5a" /\
  Common.SignatureToHex Sample.env "5a" = Common.SignatureToHex Sample.plainKeyEnv "5a".
Proof.
  apply (SignatureToHex_ignores_prefix Sample.plainKeyEnv Sample.env "5a");
    try reflexivity; discriminate.
Defined.

(** X21: [CheckSignature] never accepts an address that is written without
    the [0x] prefix (in either case of the letter), whatever key the
    signature recovers: the address it compares with always carries the
    prefix. *)
Theorem CheckSignature_requires_prefix (recover : string -> string -> string)
    (messageHash signature address : string) :
  substring 0 2 (Js.toLowerCase address) <> "0x" ->
  Common.CheckSignature recover messageHash signature address = false.
Proof.
  intros H. unfold Common.CheckSignature. apply String.eqb_neq. intros E.
  apply H. rewrite <- E. cbn.
  now destruct (Js.toLowerCase (recover _ _)).
Qed.

(** The address that the signature recovers, given without prefix, is
    refused; given with it, in capitals, it is accepted. *)
Lemma CheckSignature_requires_prefix_witness :
  Common.CheckSignature (fun _ _ => "c9ab") "0x5a" "0x51" "c9ab" = false.
Proof.
  apply (CheckSignature_requires_prefix (fun _ _ => "c9ab") "0x5a" "0x51" "c9ab").
  discriminate.
Defined.

Example CheckSignature_samples :
  Common.CheckSignature (fun _ _ => "c9ab") "0x5a" "0x51" "0XC9AB" = true /\
  Common.CheckSignature (fun _ _ => "c9ab") "0x5a" "0x51" "0xc9ac" = false /\
  Js.remove0x "0x5a0x" = "5a0x" /\ Js.remove0x "5a0x51" = "5a51".
Proof. repeat split; reflexivity. Qed.

(* ================================================================== *)
(** * The watcher and the handler of inbound transfers together *)
(* ================================================================== *)

(** X22: under a table that has the [Transfer] entry of [CITA_EVENTS], the
    watcher calls the transfer handler for a [Transfer] event exactly when
    the event's [to] is present, not empty and spells the provider's
    address up to the case of letters; a transfer to anyone else causes no
    request at all. *)
Theorem Transfer_dispatch (env : Env) (item : HttpWatcher.WatchItem) (event : Event) :
  ev_event event = "Transfer" ->
  Js.lookup "Transfer" (HttpWatcher.listener item) = Some (Table.Transfer env) ->
  let toProvider :=
    exists x, Js.lookup "to" (ev_returnValues event) = Some x /\ x <> "" /\
              Js.toLowerCase x = Js.toLowerCase (cpProvider_address env) in
  (toProvider ->
   HttpWatcher.dispatch item event = Some (CITA_EVENTS.Transfer_handler env event)) /\
  (~ toProvider -> HttpWatcher.dispatch item event = None).
Proof.
  intros Hname Hentry. cbn zeta. unfold HttpWatcher.dispatch.
  rewrite Hname, Hentry. unfold HttpWatcher.filterResult.
  cbn [Table.Transfer HttpWatcher.filter HttpWatcher.handler forallb fst snd].
  split.
  - intros (x & -> & Hne & Heq).
    apply String.eqb_neq in Hne. apply String.eqb_eq in Heq.
    now rewrite Hne, Heq.
  - intros Hnot. destruct (Js.lookup "to" _) as [x |]; [| reflexivity].
    destruct (String.eqb_spec x ""); [reflexivity |].
    destruct (String.eqb_spec (Js.toLowerCase x) (Js.toLowerCase (cpProvider_address env)));
      [| reflexivity].
    contradiction Hnot. now exists x.
Qed.

(** The sample transfer, which is addressed to the provider ["0xC9"]. *)
Lemma Transfer_dispatch_witness :
  let item := {| HttpWatcher.contract := AppPN;
                 HttpWatcher.listener := [("Transfer", Table.Transfer Sample.env)] |} in
  HttpWatcher.dispatch item (Sample.transferEvent "0x7e" "9" "1100") =
  Some (CITA_EVENTS.Transfer_handler Sample.env (Sample.transferEvent "0x7e" "9" "1100")).
Proof.
  cbn zeta.
  apply (Transfer_dispatch Sample.env
           {| HttpWatcher.contract := AppPN;
              HttpWatcher.listener := [("Transfer", Table.Transfer Sample.env)] |}
           (Sample.transferEvent "0x7e" "9" "1100") eq_refl eq_refl).
  exists "0xC9". repeat split. discriminate.
Defined.
